(** * Verification of the config-entries views

    A shallow embedding of
    [homeassistant/components/config/config_entries.py]: the HTTP views of
    the config manager and the two websocket commands on system options.

    Python dictionaries are finite maps with string keys, Python exceptions
    are the left injection of an error monad, and the mutable
    [hass] / [connection] objects are threaded through explicitly. *)

From stdpp Require Import gmap strings list fin_maps.

Local Open Scope string_scope.
Set Warnings "-register-all,-clear-no-such-hyp".

(** ** Python values *)

(** The system options of a config entry: [SystemOptions] with its one
    attribute. *)
Record SystemOptions := mkSystemOptions { disable_new_entities : bool }.

(** A config entry, polymorphic in the type of its [data] payload so that it
    can be nested in the type of values below. *)
Record ConfigEntry_ (V : Type) := mkConfigEntry {
  entry_id : string;
  domain : string;
  title : string;
  data : V;
  source : string;
  state : string;
  connection_class : string;
  system_options : SystemOptions
}.
Arguments mkConfigEntry {V}.
Arguments entry_id {V}.
Arguments domain {V}.
Arguments title {V}.
Arguments data {V}.
Arguments source {V}.
Arguments state {V}.
Arguments connection_class {V}.
Arguments system_options {V}.

(** The values that flow through the views: JSON-like data, plus the two
    kinds of objects the file touches (a [ConfigEntry] stored under
    [result["result"]], a voluptuous schema stored under
    [result["data_schema"]]). *)
Inductive value :=
| VNone
| VBool (b : bool)
| VInt (z : Z)
| VStr (s : string)
| VList (l : list value)
| VDict (d : gmap string value)
| VEntry (e : ConfigEntry_ value)
| VSchema (fields : list (string * string)).

Abbreviation ConfigEntry := (ConfigEntry_ value).
Abbreviation dict := (gmap string value).

(** ** Exceptions and the two monads *)

(** The exceptions the file raises, catches or can run into. *)
Inductive exn :=
| KeyError (key : string)
| AttributeError (attr : string)
| TypeError
| UnknownEntry
| Unauthorized (config_entry_id : option string)
               (perm_category : option string)
               (permission : option string)
| Invalid
| OtherError (what : string).

(** A computation that returns or raises. *)
Definition exc (A : Type) : Type := exn + A.

Definition ok {A} (a : A) : exc A := inr a.
Definition raise {A} (e : exn) : exc A := inl e.

Definition bind {A B} (m : exc A) (f : A -> exc B) : exc B :=
  match m with
  | inl e => inl e
  | inr a => f a
  end.

Notation "'let*' x := m 'in' k" := (bind m (fun x => k))
  (at level 10, x name, m at level 100, k at level 200,
   format "'[v' 'let*'  x  :=  m  'in' '/' k ']'").

(** A computation on a mutable object of type [S]: what was mutated before an
    exception stays mutated. *)
Definition M (S A : Type) : Type := S -> exc A * S.

Definition ret {S A} (a : A) : M S A := fun s => (ok a, s).
Definition throw {S A} (e : exn) : M S A := fun s => (raise e, s).
Definition lift {S A} (r : exc A) : M S A := fun s => (r, s).
Definition gets {S A} (f : S -> A) : M S A := fun s => (ok (f s), s).
Definition modify {S} (f : S -> S) : M S unit := fun s => (ok tt, f s).

Definition bindM {S A B} (m : M S A) (f : A -> M S B) : M S B :=
  fun s =>
    match m s with
    | (inl e, s') => (inl e, s')
    | (inr a, s') => f a s'
    end.

Notation "'let!' x := m 'in' k" := (bindM m (fun x => k))
  (at level 10, x name, m at level 100, k at level 200,
   format "'[v' 'let!'  x  :=  m  'in' '/' k ']'").

(** [try: m except UnknownEntry: h]. *)
Definition except_UnknownEntry {S A} (m : M S A) (h : M S A) : M S A :=
  fun s =>
    match m s with
    | (inl UnknownEntry, s') => h s'
    | r => r
    end.

(** ** Dictionary primitives *)

(** [d[k]]: subscripting raises [KeyError] on a missing key. *)
Definition getitem (d : dict) (k : string) : exc value :=
  match d !! k with
  | Some v => ok v
  | None => raise (KeyError k)
  end.

(** [d.pop(k)]: removes the key and returns its value, [KeyError] when the
    key is missing. *)
Definition pop (d : dict) (k : string) : exc (value * dict) :=
  match d !! k with
  | Some v => ok (v, delete k d)
  | None => raise (KeyError k)
  end.

(** [v != s] for a string constant [s]: a value of another type is never
    equal to a string. *)
Definition ne_str (v : value) (s : string) : bool :=
  match v with
  | VStr s' => negb (String.eqb s' s)
  | _ => true
  end.

(** [v.entry_id]: only a config entry has the attribute. *)
Definition getattr_entry_id (v : value) : exc value :=
  match v with
  | VEntry e => ok (VStr (entry_id e))
  | _ => raise (AttributeError "entry_id")
  end.

(** ** The objects the views receive *)

(** [request["hass_user"]]. *)
Record User := mkUser { is_admin : bool }.

(** An HTTP request: the authenticated user and the request body, which only
    the inherited handlers read. *)
Record Request := mkRequest { hass_user : User; body : value }.

(** What a view returns: [self.json(result)] or
    [self.json_message(message, status_code)]. *)
Inductive Response :=
| json (result : value)
| json_message (message : string) (status_code : Z).

(** One in-progress flow, with the fields of the spec's data model. *)
Record Flow := mkFlow {
  flow_id : string;
  handler_key : string;
  context : dict;
  current_step_id : string;
  handler_instance : value
}.

(** [request.app["hass"]]: the registry of config entries, in insertion
    order, and the flows in progress. *)
Record HomeAssistant := mkHass {
  entries : list ConfigEntry;
  progress : list Flow
}.

(** A message sent on a websocket connection: [messages.result_message] or
    [messages.error_message]. *)
Inductive ws_message :=
| result_message (iden : value) (result : value)
| error_message (iden : value) (code : string) (message : string).

(** A websocket connection: its user and what was sent on it so far. *)
Record ActiveConnection := mkConnection {
  user : User;
  sent : list ws_message
}.

(** The two objects a websocket command handler is called with. *)
Record World := mkWorld {
  hass : HomeAssistant;
  connection : ActiveConnection
}.

(** [connection.send_result(msg_id, result)]. *)
Definition send_result (msg_id result : value) : M World unit :=
  modify (fun w =>
    mkWorld (hass w)
      (mkConnection (user (connection w))
         (sent (connection w) ++ [result_message msg_id result]))).

(** [connection.send_error(msg_id, code, message)]. *)
Definition send_error (msg_id : value) (code message : string) : M World unit :=
  modify (fun w =>
    mkWorld (hass w)
      (mkConnection (user (connection w))
         (sent (connection w) ++ [error_message msg_id code message]))).

(** ** Imported names *)

Module data_entry_flow.

(** Modelled from the spec: the result-type constants of
    [homeassistant.data_entry_flow], declared outside the file; the spec
    names the tags FORM and CREATE_ENTRY. The theorems below hold for any
    choice of the two strings. *)
Definition RESULT_TYPE_FORM : string := "form".
Definition RESULT_TYPE_CREATE_ENTRY : string := "create_entry".

End data_entry_flow.

Module const.

(** Modelled from the spec: the permission category of
    [homeassistant.auth.permissions.const] and the not-found error code of
    [websocket_api.const], declared outside the file. *)
Definition CAT_CONFIG_ENTRIES : string := "config_entries".
Definition ERR_NOT_FOUND : string := "not_found".

End const.

Module config_entries.

(** Modelled from the spec: the source tag USER of a flow's context, declared
    in [homeassistant.config_entries]. *)
Definition SOURCE_USER : string := "user".

(** A function object, compared by identity; the qualified name stands for
    the identity. *)
Inductive callable := Callable (qualname : string).

Definition callable_ne (f g : callable) : bool :=
  match f, g with
  | Callable a, Callable b => negb (String.eqb a b)
  end.

(** A registered flow handler class, as far as the views look at it. *)
Record Handler := mkHandler { async_get_options_flow : callable }.

(** [ConfigFlow.async_get_options_flow], the base implementation. *)
Definition ConfigFlow_async_get_options_flow : callable :=
  Callable "ConfigFlow.async_get_options_flow".

(** Modelled from the spec: [EntryRegistry.list], the entries in insertion
    order ([hass.config_entries.async_entries()], outside the file). *)
Definition async_entries (h : HomeAssistant) : list ConfigEntry := entries h.

(** Modelled from the spec: [EntryRegistry.get], the entry of that id or
    nothing ([hass.config_entries.async_get_entry], outside the file). An id
    that is not a string equals no entry's id. *)
Definition async_get_entry (h : HomeAssistant) (eid : value) : option ConfigEntry :=
  match eid with
  | VStr s => List.find (fun e => String.eqb (entry_id e) s) (entries h)
  | _ => None
  end.

(** [entry.system_options.as_dict()]. *)
Definition as_dict (o : SystemOptions) : value :=
  VDict {[ "disable_new_entities" := VBool (disable_new_entities o) ]}.

(** Modelled from the spec: [EntryRegistry.update_system_options] merges only
    the recognized key [disable_new_entities] into [system_options]; any
    other key of the patch is ignored ([SystemOptions.update], outside the
    file). *)
Definition SystemOptions_update (o : SystemOptions) (changes : dict) : SystemOptions :=
  match changes !! "disable_new_entities" with
  | Some (VBool b) => mkSystemOptions b
  | _ => o
  end.

(** The entry object after the merge: every other attribute is kept. *)
Definition with_system_options (e : ConfigEntry) (o : SystemOptions) : ConfigEntry :=
  mkConfigEntry (entry_id e) (domain e) (title e) (data e) (source e)
                (state e) (connection_class e) o.

(** The registry after the object [e'] was mutated in place: the first entry
    of that id is the object. *)
Fixpoint store_entry (e' : ConfigEntry) (l : list ConfigEntry) : list ConfigEntry :=
  match l with
  | [] => []
  | e :: l' =>
      if String.eqb (entry_id e) (entry_id e') then e' :: l'
      else e :: store_entry e' l'
  end.

(** Modelled from the spec: [hass.config_entries.async_update_entry(entry,
    system_options=changes)], outside the file. The entry object is shared
    between the registry and the caller's variable, so the call returns the
    object after the mutation and leaves the registry holding it. *)
Definition async_update_entry (entry : ConfigEntry) (changes : dict)
  : M HomeAssistant ConfigEntry :=
  fun h =>
    let entry' := with_system_options entry
                    (SystemOptions_update (system_options entry) changes) in
    (ok entry', mkHass (store_entry entry' (entries h)) (progress h)).

(** Modelled from the spec: [EntryRegistry.remove] unloads the entry's live
    resources, then deletes the record, and fails with [UnknownEntry] if
    the id is absent; an unload failure does not block the deletion and is
    told in the outcome ([hass.config_entries.async_remove], outside the
    file). [unload] is the external setup pipeline. *)
Definition async_remove (unload : ConfigEntry -> bool) (eid : string)
  : M HomeAssistant value :=
  fun h =>
    match List.find (fun e => String.eqb (entry_id e) eid) (entries h) with
    | None => (raise UnknownEntry, h)
    | Some e =>
        (ok (VDict {[ "unload_failed" := VBool (negb (unload e)) ]}),
         mkHass (List.filter (fun e' => negb (String.eqb (entry_id e') eid))
                             (entries h))
                (progress h))
    end.

(** Modelled from the spec: [FlowManager.list_in_progress], a read-only
    snapshot whose summaries expose [flow_id], [handler_key], [context] and
    [current_step_id] ([hass.config_entries.flow.async_progress], outside the
    file). *)
Definition flow_summary (f : Flow) : value :=
  VDict (<["flow_id" := VStr (flow_id f)]>
        (<["handler_key" := VStr (handler_key f)]>
        (<["context" := VDict (context f)]>
        (<["current_step_id" := VStr (current_step_id f)]> ∅)))).

Definition async_progress (h : HomeAssistant) : list value :=
  flow_summary <$> progress h.

End config_entries.

Module websocket_api.

(** Modelled from the spec: the decorator [websocket_api.require_admin],
    outside the file. The handler runs only for an admin; any other caller
    is refused with [Unauthorized] before the handler is entered. The
    decorators [async_response] and [websocket_command] schedule the
    handler and attach its schema; they do not change what it computes. *)
Definition require_admin (func : dict -> M World unit) (msg : dict) : M World unit :=
  fun w =>
    if is_admin (user (connection w)) then func msg w
    else throw (Unauthorized None None None) w.

End websocket_api.

(** [v[k]] on a value: only a dictionary can be subscripted by a string. *)
Definition subscript (v : value) (k : string) : exc value :=
  match v with
  | VDict d => getitem d k
  | _ => raise TypeError
  end.

(** [[x for x in l if p(x)]], where the condition may raise. *)
Fixpoint comprehension_if (p : value -> exc bool) (l : list value) : exc (list value) :=
  match l with
  | [] => ok []
  | x :: l' =>
      let* keep := p x in
      let* rest := comprehension_if p l' in
      ok (if keep then x :: rest else rest)
  end.

(** ** The module [config_entries.py] *)

Section prepare_json.

(** [voluptuous_serialize.convert], an external library. *)
Variable convert : value -> exc value.

(** [_prepare_json(result)], lines 37-52. [result.copy()] is the same map:
    the model has no mutation of [result] to protect it from. *)
Definition _prepare_json (result : dict) : exc dict :=
  let* ty := getitem result "type" in
  if ne_str ty data_entry_flow.RESULT_TYPE_FORM then ok result
  else
    let data := result in
    let* schema := getitem data "data_schema" in
    match schema with
    | VNone => ok (<["data_schema" := VList []]> data)
    | _ =>
        let* fields := convert schema in
        ok (<["data_schema" := fields]> data)
    end.

End prepare_json.

Module ConfigManagerEntryIndexView.
Section view.

(** [config_entries.HANDLERS], the process-wide registry of flow handlers. *)
Variable HANDLERS : gmap string config_entries.Handler.

(** The value of [supports_options] for one entry, lines 68-75. *)
Definition supports_options (entry : ConfigEntry) : bool :=
  match HANDLERS !! domain entry with
  | None => false
  | Some handler =>
      config_entries.callable_ne
        (config_entries.async_get_options_flow handler)
        config_entries.ConfigFlow_async_get_options_flow
  end.

(** The dictionary appended for one entry, lines 76-86. *)
Definition entry_json (entry : ConfigEntry) : value :=
  VDict (<["entry_id" := VStr (entry_id entry)]>
        (<["domain" := VStr (domain entry)]>
        (<["title" := VStr (title entry)]>
        (<["source" := VStr (source entry)]>
        (<["state" := VStr (state entry)]>
        (<["connection_class" := VStr (connection_class entry)]>
        (<["supports_options" := VBool (supports_options entry)]> ∅))))))).

(** [get(self, request)], lines 61-88. *)
Definition get (request : Request) : M HomeAssistant Response :=
  let! all := gets config_entries.async_entries in
  let results := entry_json <$> all in
  ret (json (VList results)).

End view.
End ConfigManagerEntryIndexView.

Module ConfigManagerEntryResourceView.
Section view.

(** [hass.config_entries.async_remove], outside the file. *)
Variable async_remove : string -> M HomeAssistant value.

(** [delete(self, request, entry_id)], lines 97-109. *)
Definition delete (request : Request) (entry_id : string) : M HomeAssistant Response :=
  if negb (is_admin (hass_user request)) then
    throw (Unauthorized (Some entry_id) None (Some "remove"))
  else
    except_UnknownEntry
      (let! result := async_remove entry_id in
       ret (json result))
      (ret (json_message "Invalid entry specified" 404)).

End view.
End ConfigManagerEntryResourceView.

Module ConfigManagerFlowIndexView.
Section view.

(** The inherited [FlowManagerIndexView.post] and
    [_prepare_result_json], outside the file. *)
Variable super_post : Request -> M HomeAssistant Response.
Variable super_prepare_result_json : dict -> exc dict.

(** The condition of the comprehension, line 133. *)
Definition not_user_flow (flw : value) : exc bool :=
  let* ctx := subscript flw "context" in
  let* src := subscript ctx "source" in
  ok (ne_str src config_entries.SOURCE_USER).

(** [get(self, request)], lines 118-135. *)
Definition get (request : Request) : M HomeAssistant Response :=
  if negb (is_admin (hass_user request)) then
    throw (Unauthorized None (Some const.CAT_CONFIG_ENTRIES) (Some "add"))
  else
    let! flows := gets config_entries.async_progress in
    let! shown := lift (comprehension_if not_user_flow flows) in
    ret (json (VList shown)).

(** [post(self, request)], lines 138-144. *)
Definition post (request : Request) : M HomeAssistant Response :=
  if negb (is_admin (hass_user request)) then
    throw (Unauthorized None (Some const.CAT_CONFIG_ENTRIES) (Some "add"))
  else super_post request.

(** [_prepare_result_json(self, result)], lines 146-154. *)
Definition _prepare_result_json (result : dict) : exc dict :=
  let* ty := getitem result "type" in
  if ne_str ty data_entry_flow.RESULT_TYPE_CREATE_ENTRY then
    super_prepare_result_json result
  else
    let data := result in
    let* created := getitem data "result" in
    let* eid := getattr_entry_id created in
    let data := <["result" := eid]> data in
    let* popped := pop data "data" in
    ok (snd popped).

End view.
End ConfigManagerFlowIndexView.

Module ConfigManagerFlowResourceView.
Section view.

(** The inherited [FlowManagerResourceView.get], [post] and
    [_prepare_result_json], outside the file. *)
Variable super_get : Request -> string -> M HomeAssistant Response.
Variable super_post : Request -> string -> M HomeAssistant Response.
Variable super_prepare_result_json : dict -> exc dict.

(** [get(self, request, flow_id)], lines 163-168. *)
Definition get (request : Request) (flow_id : string) : M HomeAssistant Response :=
  if negb (is_admin (hass_user request)) then
    throw (Unauthorized None (Some const.CAT_CONFIG_ENTRIES) (Some "add"))
  else super_get request flow_id.

(** [post(self, request, flow_id)], lines 171-177. *)
Definition post (request : Request) (flow_id : string) : M HomeAssistant Response :=
  if negb (is_admin (hass_user request)) then
    throw (Unauthorized None (Some const.CAT_CONFIG_ENTRIES) (Some "add"))
  else super_post request flow_id.

(** [_prepare_result_json(self, result)], lines 179-187. *)
Definition _prepare_result_json (result : dict) : exc dict :=
  let* ty := getitem result "type" in
  if ne_str ty data_entry_flow.RESULT_TYPE_CREATE_ENTRY then
    super_prepare_result_json result
  else
    let data := result in
    let* created := getitem data "result" in
    let* eid := getattr_entry_id created in
    let data := <["result" := eid]> data in
    let* popped := pop data "data" in
    ok (snd popped).

End view.
End ConfigManagerFlowResourceView.

Module ConfigManagerAvailableFlowView.
Section view.

(** [homeassistant.loader.async_get_config_flows], outside the file. *)
Variable async_get_config_flows : M HomeAssistant value.

(** [get(self, request)], lines 196-199. *)
Definition get (request : Request) : M HomeAssistant Response :=
  let! flows := async_get_config_flows in
  ret (json flows).

End view.
End ConfigManagerAvailableFlowView.

Module OptionManagerFlowIndexView.
Section view.

(** The inherited [FlowManagerIndexView.post], outside the file. *)
Variable super_post : Request -> M HomeAssistant Response.

(** [post(self, request)], lines 209-218. *)
Definition post (request : Request) : M HomeAssistant Response :=
  if negb (is_admin (hass_user request)) then
    throw (Unauthorized None (Some const.CAT_CONFIG_ENTRIES) (Some "edit"))
  else super_post request.

End view.
End OptionManagerFlowIndexView.

Module OptionManagerFlowResourceView.
Section view.

(** The inherited [FlowManagerResourceView.get] and [post], outside the
    file. *)
Variable super_get : Request -> string -> M HomeAssistant Response.
Variable super_post : Request -> string -> M HomeAssistant Response.

(** [get(self, request, flow_id)], lines 227-232. *)
Definition get (request : Request) (flow_id : string) : M HomeAssistant Response :=
  if negb (is_admin (hass_user request)) then
    throw (Unauthorized None (Some const.CAT_CONFIG_ENTRIES) (Some "edit"))
  else super_get request flow_id.

(** [post(self, request, flow_id)], lines 235-241. *)
Definition post (request : Request) (flow_id : string) : M HomeAssistant Response :=
  if negb (is_admin (hass_user request)) then
    throw (Unauthorized None (Some const.CAT_CONFIG_ENTRIES) (Some "edit"))
  else super_post request flow_id.

End view.
End OptionManagerFlowResourceView.

(** A registry operation run from a websocket command: it sees and mutates
    [hass] only. *)
Definition on_hass {A} (m : M HomeAssistant A) : M World A :=
  fun w =>
    match m (hass w) with
    | (r, h') => (r, mkWorld h' (connection w))
    end.

(** [system_options_list(hass, connection, msg)], lines 249-255, before its
    decorators. A [ConfigEntry] object is always truthy, so [if entry:] tests
    for [None]. *)
Definition system_options_list (msg : dict) : M World unit :=
  let! entry_id := lift (getitem msg "entry_id") in
  let! entry := gets (fun w => config_entries.async_get_entry (hass w) entry_id) in
  match entry with
  | Some entry =>
      let! iden := lift (getitem msg "id") in
      send_result iden (config_entries.as_dict (system_options entry))
  | None => ret tt
  end.

(** Lines 269-272: the copy of the message with the envelope popped, and the
    popped entry id. *)
Definition pop_envelope (msg : dict) : exc (value * dict) :=
  let changes := msg in
  let* p := pop changes "id" in
  let* p := pop (snd p) "type" in
  let* p := pop (snd p) "entry_id" in
  ok p.

(** The keys the command schema of lines 260-266 admits, with the [id] of
    every command message. *)
Definition system_options_update_schema : gset string :=
  {[ "id"; "type"; "entry_id"; "disable_new_entities" ]}.

Section commands.

(** [hass.config_entries.async_update_entry(entry, system_options=...)]. *)
Variable async_update_entry : ConfigEntry -> dict -> M HomeAssistant ConfigEntry.

(** [system_options_update(hass, connection, msg)], lines 267-282, before its
    decorators. *)
Definition system_options_update (msg : dict) : M World unit :=
  let! p := lift (pop_envelope msg) in
  let entry_id := fst p in
  let changes := snd p in
  let! entry := gets (fun w => config_entries.async_get_entry (hass w) entry_id) in
  match entry with
  | None =>
      let! iden := lift (getitem msg "id") in
      send_error iden const.ERR_NOT_FOUND "Config entry not found"
  | Some entry =>
      let! entry := on_hass (async_update_entry entry changes) in
      let! iden := lift (getitem msg "id") in
      send_result iden (config_entries.as_dict (system_options entry))
  end.

End commands.

(** The two registered commands, with [@websocket_api.require_admin]. *)
Definition system_options_list_command : dict -> M World unit :=
  websocket_api.require_admin system_options_list.

Definition system_options_update_command : dict -> M World unit :=
  websocket_api.require_admin
    (system_options_update config_entries.async_update_entry).

(** ** The command schema *)

(** The validator the schema of lines 260-266 gives each key: the literal
    for [type], [str] for [entry_id], [bool] for the optional
    [disable_new_entities]. The [id] of every command message is validated
    with the base schema, outside the file; any value is let through here.
    A key the schema does not name has no validator. *)
Definition system_options_update_validator (key : string) (v : value) : bool :=
  if String.eqb key "id" then true
  else if String.eqb key "type" then
    match v with
    | VStr s => String.eqb s "config_entries/system_options/update"
    | _ => false
    end
  else if String.eqb key "entry_id" then
    match v with VStr _ => true | _ => false end
  else if String.eqb key "disable_new_entities" then
    match v with VBool _ => true | _ => false end
  else false.

(** A message the schema admits: every key it carries is named by the
    schema and holds a value its validator accepts. *)
Definition system_options_update_admits (msg : dict) : bool :=
  bool_decide
    (map_Forall (fun k v => system_options_update_validator k v = true) msg).

(** Modelled from the spec: a message is validated upstream, against the
    schema of its command, before the handler is called (the dispatcher of
    [websocket_api], outside the file). A message the schema does not admit
    raises [vol.Invalid] and the handler, with its admin check, is not
    entered. *)
Definition dispatch (admits : dict -> bool) (handler : dict -> M World unit)
    (msg : dict) : M World unit :=
  if admits msg then handler msg else throw Invalid.

(** The update command as it is registered: schema, admin check, handler. *)
Definition registered_system_options_update
    (async_update_entry : ConfigEntry -> dict -> M HomeAssistant ConfigEntry)
  : dict -> M World unit :=
  dispatch system_options_update_admits
    (websocket_api.require_admin (system_options_update async_update_entry)).

(** ** Sample data *)

Definition sample_entry : ConfigEntry :=
  mkConfigEntry "E1" "demo" "x" (VDict {[ "name" := VStr "x" ]}) "user"
                "not_loaded" "local_poll" (mkSystemOptions false).

Definition sample_flow (id src : string) : Flow :=
  mkFlow id "demo" {[ "source" := VStr src ]} "user" (VStr "<handler>").

Definition sample_hass : HomeAssistant :=
  mkHass [sample_entry]
         [sample_flow "F1" "user"; sample_flow "F2" "discovery"].

Definition admin : User := mkUser true.
Definition guest : User := mkUser false.

Definition sample_world (u : User) : World :=
  mkWorld sample_hass (mkConnection u []).

Definition create_entry_result : dict :=
  <["type" := VStr data_entry_flow.RESULT_TYPE_CREATE_ENTRY]>
  (<["title" := VStr "x"]>
  (<["data" := VDict {[ "name" := VStr "x" ]}]>
  (<["result" := VEntry sample_entry]> ∅))).

Definition abort_result : dict :=
  <["type" := VStr "abort"]> (<["reason" := VStr "already_configured"]> ∅).

Definition form_result (schema : value) : dict :=
  <["type" := VStr data_entry_flow.RESULT_TYPE_FORM]>
  (<["step_id" := VStr "user"]>
  (<["data_schema" := schema]> ∅)).

(** Modelled from the spec: [SchemaCodec.encode] turns a schema into the
    ordered sequence of its field descriptors; used only to run the samples. *)
Definition sample_convert (schema : value) : exc value :=
  match schema with
  | VSchema fields =>
      ok (VList ((fun f => VDict (<["name" := VStr (fst f)]>
                                 (<["type" := VStr (snd f)]> ∅))) <$> fields))
  | _ => raise TypeError
  end.

Definition update_msg (eid : string) (extra : dict) : dict :=
  <["id" := VInt 5]>
  (<["type" := VStr "config_entries/system_options/update"]>
  (<["entry_id" := VStr eid]> extra)).

Definition list_msg (eid : string) : dict :=
  <["id" := VInt 7]>
  (<["type" := VStr "config_entries/system_options/list"]>
  (<["entry_id" := VStr eid]> ∅)).

(** An inherited handler that would wipe the registry: the admin gate must
    keep it from running. *)
Definition wipe_post (request : Request) : M HomeAssistant Response :=
  fun h => (ok (json VNone), mkHass [] []).

(** ** Specification vocabulary *)

(** A flow that was not started by a user: its context names a source other
    than [SOURCE_USER]. *)
Definition not_started_by_user (f : Flow) : bool :=
  match context f !! "source" with
  | Some src => ne_str src config_entries.SOURCE_USER
  | None => false
  end.

(** The keys of a flow summary and of an entry of the entry list. *)
Definition summary_keys : gset string :=
  {[ "flow_id"; "handler_key"; "context"; "current_step_id" ]}.

Definition entry_keys : gset string :=
  {[ "entry_id"; "domain"; "title"; "source"; "state"; "connection_class";
     "supports_options" ]}.

(** What the entry list must show of one entry. *)
Definition shows_entry (HANDLERS : gmap string config_entries.Handler)
    (entry : ConfigEntry) (shown : value) : Prop :=
  exists d,
    shown = VDict d
    /\ dom d = entry_keys
    /\ d !! "entry_id" = Some (VStr (entry_id entry))
    /\ d !! "domain" = Some (VStr (domain entry))
    /\ d !! "title" = Some (VStr (title entry))
    /\ d !! "source" = Some (VStr (source entry))
    /\ d !! "state" = Some (VStr (state entry))
    /\ d !! "connection_class" = Some (VStr (connection_class entry))
    /\ d !! "data" = None
    /\ d !! "system_options" = None
    /\ exists b,
        d !! "supports_options" = Some (VBool b)
        /\ (b = true <->
            exists handler,
              HANDLERS !! domain entry = Some handler
              /\ config_entries.async_get_options_flow handler
                 <> config_entries.ConfigFlow_async_get_options_flow).

(** Two entries that agree on the attributes the entry list reads. *)
Definition same_public_fields (e1 e2 : ConfigEntry) : Prop :=
  entry_id e1 = entry_id e2
  /\ domain e1 = domain e2
  /\ title e1 = title e2
  /\ source e1 = source e2
  /\ state e1 = state e2
  /\ connection_class e1 = connection_class e2.

(** The source a flow summary names, if it is a dictionary whose context is
    a dictionary with a source. *)
Definition source_of (flw : value) : option value :=
  match flw with
  | VDict d =>
      match d !! "context" with
      | Some (VDict ctx) => ctx !! "source"
      | _ => None
      end
  | _ => None
  end.

(** A summary that names a source other than [SOURCE_USER]. *)
Definition names_other_source (flw : value) : bool :=
  match source_of flw with
  | Some src => ne_str src config_entries.SOURCE_USER
  | None => false
  end.

(** The sample entry with another payload and other system options. *)
Definition sample_entry_private : ConfigEntry :=
  mkConfigEntry "E1" "demo" "x" (VDict {[ "token" := VStr "secret" ]}) "user"
                "not_loaded" "local_poll" (mkSystemOptions true).

(** A flow whose context names no source. *)
Definition sourceless_flow : Flow :=
  mkFlow "F3" "demo" ∅ "user" (VStr "<handler>").

(** A removal that fails for a reason other than an unknown entry. *)
Definition failing_remove (eid : string) : M HomeAssistant value :=
  throw (OtherError "unload crashed").



(** A loader that knows one flow handler. *)
Definition sample_config_flows : M HomeAssistant value :=
  ret (VList [VStr "demo"]).

(** * Properties *)

(** ** Primitives *)

Lemma ne_str_false (v : value) (s : string) :
  ne_str v s = false <-> v = VStr s.
Proof.
  split.
  - destruct v; simpl; try discriminate.
    intros H. apply negb_false_iff, String.eqb_eq in H. by subst.
  - intros ->. simpl. by rewrite String.eqb_refl.
Qed.

Lemma ne_str_true (v : value) (s : string) :
  ne_str v s = true <-> v <> VStr s.
Proof.
  rewrite <- ne_str_false. destruct (ne_str v s); split; congruence.
Qed.

Lemma getitem_Some (d : dict) (k : string) (v : value) :
  d !! k = Some v -> getitem d k = ok v.
Proof. unfold getitem. by intros ->. Qed.

Lemma pop_Some (d : dict) (k : string) (v : value) :
  d !! k = Some v -> pop d k = ok (v, delete k d).
Proof. unfold pop. by intros ->. Qed.

Lemma getitem_ok_inv (d : dict) (k : string) (v : value) :
  getitem d k = ok v -> d !! k = Some v.
Proof. unfold getitem. destruct (d !! k); [by intros [= ->] | discriminate]. Qed.

Lemma getattr_entry_id_ok_inv (v w : value) :
  getattr_entry_id v = ok w -> exists e, v = VEntry e /\ w = VStr (entry_id e).
Proof. destruct v; try discriminate. intros [= <-]. eauto. Qed.

(** ** Result preparation of the two config-flow views *)

Section prepare_result_json.

Variable sup : dict -> exc dict.
Variable result : dict.

Lemma index_prepare_other (ty : value) :
  result !! "type" = Some ty ->
  ne_str ty data_entry_flow.RESULT_TYPE_CREATE_ENTRY = true ->
  ConfigManagerFlowIndexView._prepare_result_json sup result = sup result.
Proof.
  intros Hty Hne. unfold ConfigManagerFlowIndexView._prepare_result_json.
  rewrite (getitem_Some _ _ _ Hty). simpl. by rewrite Hne.
Qed.

Lemma resource_prepare_other (ty : value) :
  result !! "type" = Some ty ->
  ne_str ty data_entry_flow.RESULT_TYPE_CREATE_ENTRY = true ->
  ConfigManagerFlowResourceView._prepare_result_json sup result = sup result.
Proof.
  intros Hty Hne. unfold ConfigManagerFlowResourceView._prepare_result_json.
  rewrite (getitem_Some _ _ _ Hty). simpl. by rewrite Hne.
Qed.

Lemma index_prepare_resource_same :
  ConfigManagerFlowIndexView._prepare_result_json sup result
  = ConfigManagerFlowResourceView._prepare_result_json sup result.
Proof. reflexivity. Qed.

Lemma index_prepare_create_entry (e : ConfigEntry) (payload : value) :
  result !! "type" = Some (VStr data_entry_flow.RESULT_TYPE_CREATE_ENTRY) ->
  result !! "result" = Some (VEntry e) ->
  result !! "data" = Some payload ->
  ConfigManagerFlowIndexView._prepare_result_json sup result
  = ok (delete "data" (<["result" := VStr (entry_id e)]> result)).
Proof.
  intros Hty Hres Hdata. unfold ConfigManagerFlowIndexView._prepare_result_json.
  rewrite (getitem_Some _ _ _ Hty). simpl.
  rewrite (getitem_Some _ _ _ Hres). simpl.
  rewrite (pop_Some _ _ payload); [done |].
  by rewrite lookup_insert_ne.
Qed.

Lemma index_prepare_create_entry_inv (d : dict) :
  result !! "type" = Some (VStr data_entry_flow.RESULT_TYPE_CREATE_ENTRY) ->
  ConfigManagerFlowIndexView._prepare_result_json sup result = ok d ->
  exists e payload,
    result !! "result" = Some (VEntry e) /\ result !! "data" = Some payload.
Proof.
  intros Hty. unfold ConfigManagerFlowIndexView._prepare_result_json.
  rewrite (getitem_Some _ _ _ Hty). simpl.
  destruct (getitem result "result") as [|created] eqn:Hres; [discriminate |].
  simpl. apply getitem_ok_inv in Hres.
  destruct (getattr_entry_id created) as [|eid] eqn:Hid; [discriminate |].
  apply getattr_entry_id_ok_inv in Hid as (e & -> & ->). simpl.
  unfold pop. rewrite lookup_insert_ne by done.
  destruct (result !! "data") as [payload|] eqn:Hdata; [| discriminate].
  intros _. eauto.
Qed.

End prepare_result_json.

(** C1. A CREATE_ENTRY result that carries the created entry under "result"
    and a "data" key is prepared, by the flow index view and by the flow
    resource view alike, into the same dictionary without the "data" key and
    with "result" replaced by the entry's [entry_id]; whenever either view
    returns a prepared dictionary for a CREATE_ENTRY result it has this shape;
    a result of any other type is handed to the inherited preparation as it
    is. *)
Theorem create_entry_result_hides_data
  (sup_index sup_resource : dict -> exc dict) (result : dict) :
  (forall e payload,
      result !! "type" = Some (VStr data_entry_flow.RESULT_TYPE_CREATE_ENTRY) ->
      result !! "result" = Some (VEntry e) ->
      result !! "data" = Some payload ->
      exists d,
        ConfigManagerFlowIndexView._prepare_result_json sup_index result = ok d
        /\ ConfigManagerFlowResourceView._prepare_result_json sup_resource result = ok d
        /\ d !! "data" = None
        /\ d !! "result" = Some (VStr (entry_id e))
        /\ forall k, k <> "data" -> k <> "result" -> d !! k = result !! k)
  /\ (forall d,
      result !! "type" = Some (VStr data_entry_flow.RESULT_TYPE_CREATE_ENTRY) ->
      ConfigManagerFlowIndexView._prepare_result_json sup_index result = ok d
      \/ ConfigManagerFlowResourceView._prepare_result_json sup_resource result = ok d ->
      d !! "data" = None
      /\ exists e, result !! "result" = Some (VEntry e)
                   /\ d !! "result" = Some (VStr (entry_id e)))
  /\ (forall ty,
      result !! "type" = Some ty ->
      ne_str ty data_entry_flow.RESULT_TYPE_CREATE_ENTRY = true ->
      ConfigManagerFlowIndexView._prepare_result_json sup_index result
      = sup_index result
      /\ ConfigManagerFlowResourceView._prepare_result_json sup_resource result
         = sup_resource result).
Proof.
  split; [| split].
  - intros e payload Hty Hres Hdata.
    exists (delete "data" (<["result" := VStr (entry_id e)]> result)).
    split; [by eapply index_prepare_create_entry |].
    split.
    { rewrite <- (index_prepare_resource_same sup_resource result).
      by eapply index_prepare_create_entry. }
    split; [apply lookup_delete_eq |].
    split; [rewrite lookup_delete_ne by done; apply lookup_insert_eq |].
    intros k Hk1 Hk2.
    rewrite lookup_delete_ne by done. by rewrite lookup_insert_ne.
  - intros d Hty Hd.
    assert (exists sup,
      ConfigManagerFlowIndexView._prepare_result_json sup result = ok d)
      as [sup Hsup].
    { destruct Hd as [Hd | Hd]; [by eexists |].
      exists sup_resource. by rewrite index_prepare_resource_same. }
    destruct (index_prepare_create_entry_inv sup result d Hty Hsup)
      as (e & payload & Hres & Hdata).
    rewrite (index_prepare_create_entry sup result e payload Hty Hres Hdata)
      in Hsup.
    injection Hsup as <-.
    split; [apply lookup_delete_eq |].
    exists e. split; [done |].
    rewrite lookup_delete_ne by done. apply lookup_insert_eq.
  - intros ty Hty Hne. split.
    + by eapply index_prepare_other.
    + by eapply resource_prepare_other.
Qed.

Lemma create_entry_result_hides_data_witness :
  (exists d,
      ConfigManagerFlowIndexView._prepare_result_json ok create_entry_result = ok d
      /\ ConfigManagerFlowResourceView._prepare_result_json ok create_entry_result = ok d
      /\ d !! "data" = None
      /\ d !! "result" = Some (VStr "E1"))
  /\ ConfigManagerFlowIndexView._prepare_result_json ok abort_result
     = ok abort_result.
Proof.
  split.
  - destruct (create_entry_result_hides_data ok ok create_entry_result)
      as (Hwf & _ & _).
    destruct (Hwf sample_entry (VDict {[ "name" := VStr "x" ]}))
      as (d & H1 & H2 & H3 & H4 & _); [reflexivity .. |].
    exists d. repeat split; assumption.
  - destruct (create_entry_result_hides_data ok ok abort_result)
      as (_ & _ & Hother).
    destruct (Hother (VStr "abort")) as [H _]; [reflexivity .. |].
    exact H.
Defined.

(** C10. The two [_prepare_result_json] methods compute the same prepared
    output for every step result, as soon as the inherited preparations they
    fall back to agree on that result when its type is not CREATE_ENTRY. *)
Theorem prepare_result_json_views_agree
  (sup_index sup_resource : dict -> exc dict) (result : dict) :
  (forall ty,
      result !! "type" = Some ty ->
      ne_str ty data_entry_flow.RESULT_TYPE_CREATE_ENTRY = true ->
      sup_index result = sup_resource result) ->
  ConfigManagerFlowIndexView._prepare_result_json sup_index result
  = ConfigManagerFlowResourceView._prepare_result_json sup_resource result.
Proof.
  intros Hsup.
  unfold ConfigManagerFlowIndexView._prepare_result_json,
    ConfigManagerFlowResourceView._prepare_result_json.
  destruct (getitem result "type") as [err|ty] eqn:Hty; [reflexivity |].
  simpl. apply getitem_ok_inv in Hty.
  destruct (ne_str ty data_entry_flow.RESULT_TYPE_CREATE_ENTRY) eqn:Hne;
    [by eapply Hsup | reflexivity].
Qed.

Lemma prepare_result_json_views_agree_witness :
  ConfigManagerFlowIndexView._prepare_result_json ok create_entry_result
  = ConfigManagerFlowResourceView._prepare_result_json
      (fun r => ok r) create_entry_result
  /\ ConfigManagerFlowIndexView._prepare_result_json ok abort_result
     = ConfigManagerFlowResourceView._prepare_result_json
         (fun r => ok r) abort_result.
Proof.
  split; apply prepare_result_json_views_agree; reflexivity.
Defined.

(** ** Preparation of FORM results *)

(** C7. [_prepare_json] replaces a [None] schema of a FORM result by the
    empty list, replaces any other schema by the field descriptors that
    [voluptuous_serialize.convert] returns for it, and returns a result of
    any other type unchanged; no other key of the result is touched. *)
Theorem prepare_json_form_schema
  (convert : value -> exc value) (result : dict) :
  (result !! "type" = Some (VStr data_entry_flow.RESULT_TYPE_FORM) ->
   result !! "data_schema" = Some VNone ->
   _prepare_json convert result = ok (<["data_schema" := VList []]> result))
  /\ (forall schema fields,
      result !! "type" = Some (VStr data_entry_flow.RESULT_TYPE_FORM) ->
      result !! "data_schema" = Some schema ->
      schema <> VNone ->
      convert schema = ok fields ->
      _prepare_json convert result = ok (<["data_schema" := fields]> result))
  /\ (forall ty,
      result !! "type" = Some ty ->
      ne_str ty data_entry_flow.RESULT_TYPE_FORM = true ->
      _prepare_json convert result = ok result).
Proof.
  unfold _prepare_json. split; [| split].
  - intros Hty Hschema.
    rewrite (getitem_Some _ _ _ Hty). simpl.
    by rewrite (getitem_Some _ _ _ Hschema).
  - intros schema fields Hty Hschema Hnone Hconv.
    rewrite (getitem_Some _ _ _ Hty). simpl.
    rewrite (getitem_Some _ _ _ Hschema). simpl.
    destruct schema; try congruence; by rewrite Hconv.
  - intros ty Hty Hne.
    rewrite (getitem_Some _ _ _ Hty). simpl. by rewrite Hne.
Qed.

Lemma prepare_json_form_schema_witness :
  _prepare_json sample_convert (form_result VNone)
  = ok (<["data_schema" := VList []]> (form_result VNone))
  /\ _prepare_json sample_convert (form_result (VSchema [("host", "string")]))
     = ok (<["data_schema" :=
               VList [VDict (<["name" := VStr "host"]>
                            (<["type" := VStr "string"]> ∅))]]>
             (form_result (VSchema [("host", "string")])))
  /\ _prepare_json sample_convert abort_result = ok abort_result.
Proof.
  split; [| split].
  - destruct (prepare_json_form_schema sample_convert (form_result VNone))
      as (H & _ & _).
    apply H; reflexivity.
  - destruct (prepare_json_form_schema sample_convert
                (form_result (VSchema [("host", "string")])))
      as (_ & H & _).
    apply (H (VSchema [("host", "string")])); [reflexivity .. | discriminate | reflexivity].
  - destruct (prepare_json_form_schema sample_convert abort_result)
      as (_ & _ & H).
    apply (H (VStr "abort")); reflexivity.
Defined.

(** ** The admin gate *)

(** C2. A caller who is not an admin is refused by every mutating entry
    point before anything else runs: creating and advancing a config flow
    raise [Unauthorized] with permission "add", creating and advancing an
    options flow with permission "edit", deleting an entry with permission
    "remove" and the entry's id, and the system-options update command raises
    [Unauthorized]; in each case [hass] and the connection are left exactly
    as they were, whatever the inherited handlers and the registry would
    have done. *)
Theorem non_admin_is_refused
  (index_post : Request -> M HomeAssistant Response)
  (resource_post : Request -> string -> M HomeAssistant Response)
  (options_index_post : Request -> M HomeAssistant Response)
  (options_resource_post : Request -> string -> M HomeAssistant Response)
  (async_remove : string -> M HomeAssistant value)
  (request : Request) (flow_id entry_id : string) (msg : dict)
  (h : HomeAssistant) (w : World) :
  is_admin (hass_user request) = false ->
  is_admin (user (connection w)) = false ->
  ConfigManagerFlowIndexView.post index_post request h
  = (raise (Unauthorized None (Some const.CAT_CONFIG_ENTRIES) (Some "add")), h)
  /\ ConfigManagerFlowResourceView.post resource_post request flow_id h
     = (raise (Unauthorized None (Some const.CAT_CONFIG_ENTRIES) (Some "add")), h)
  /\ OptionManagerFlowIndexView.post options_index_post request h
     = (raise (Unauthorized None (Some const.CAT_CONFIG_ENTRIES) (Some "edit")), h)
  /\ OptionManagerFlowResourceView.post options_resource_post request flow_id h
     = (raise (Unauthorized None (Some const.CAT_CONFIG_ENTRIES) (Some "edit")), h)
  /\ ConfigManagerEntryResourceView.delete async_remove request entry_id h
     = (raise (Unauthorized (Some entry_id) None (Some "remove")), h)
  /\ system_options_update_command msg w
     = (raise (Unauthorized None None None), w).
Proof.
  intros Hreq Hconn.
  unfold ConfigManagerFlowIndexView.post, ConfigManagerFlowResourceView.post,
    OptionManagerFlowIndexView.post, OptionManagerFlowResourceView.post,
    ConfigManagerEntryResourceView.delete, system_options_update_command,
    websocket_api.require_admin.
  rewrite Hreq, Hconn. simpl. repeat split.
Qed.

Lemma non_admin_is_refused_witness :
  ConfigManagerFlowIndexView.post wipe_post (mkRequest guest VNone) sample_hass
  = (raise (Unauthorized None (Some const.CAT_CONFIG_ENTRIES) (Some "add")),
     sample_hass)
  /\ ConfigManagerEntryResourceView.delete
       (config_entries.async_remove (fun _ => true))
       (mkRequest guest VNone) "E1" sample_hass
     = (raise (Unauthorized (Some "E1") None (Some "remove")), sample_hass)
  /\ system_options_update_command
       (update_msg "E1" {[ "disable_new_entities" := VBool true ]})
       (sample_world guest)
     = (raise (Unauthorized None None None), sample_world guest).
Proof.
  destruct (non_admin_is_refused
              wipe_post (fun r _ => wipe_post r)
              wipe_post (fun r _ => wipe_post r)
              (config_entries.async_remove (fun _ => true))
              (mkRequest guest VNone) "F1" "E1"
              (update_msg "E1" {[ "disable_new_entities" := VBool true ]})
              sample_hass (sample_world guest))
    as (H1 & _ & _ & _ & H5 & H6); [reflexivity | reflexivity |].
  repeat split; assumption.
Defined.

(** ** Deleting an entry *)

(** C6. For an admin, a delete whose removal raises [UnknownEntry] answers
    with the message "Invalid entry specified" and status 404, and a delete
    whose removal succeeds answers with the removal outcome as JSON; in both
    cases [hass] is what the removal left. *)
Theorem delete_entry_response
  (async_remove : string -> M HomeAssistant value)
  (request : Request) (entry_id : string) (h : HomeAssistant) :
  is_admin (hass_user request) = true ->
  (forall h',
      async_remove entry_id h = (raise UnknownEntry, h') ->
      ConfigManagerEntryResourceView.delete async_remove request entry_id h
      = (ok (json_message "Invalid entry specified" 404), h'))
  /\ (forall outcome h',
      async_remove entry_id h = (ok outcome, h') ->
      ConfigManagerEntryResourceView.delete async_remove request entry_id h
      = (ok (json outcome), h')).
Proof.
  intros Hadmin.
  unfold ConfigManagerEntryResourceView.delete, except_UnknownEntry, bindM, ret.
  rewrite Hadmin. simpl.
  split; [intros h' Hrm | intros outcome h' Hrm]; by rewrite Hrm.
Qed.

Lemma delete_entry_response_witness :
  ConfigManagerEntryResourceView.delete
    (config_entries.async_remove (fun _ => false))
    (mkRequest admin VNone) "E9" sample_hass
  = (ok (json_message "Invalid entry specified" 404), sample_hass)
  /\ ConfigManagerEntryResourceView.delete
       (config_entries.async_remove (fun _ => false))
       (mkRequest admin VNone) "E1" sample_hass
     = (ok (json (VDict {[ "unload_failed" := VBool true ]})),
        mkHass [] (progress sample_hass)).
Proof.
  split.
  - apply (delete_entry_response
             (config_entries.async_remove (fun _ => false))
             (mkRequest admin VNone) "E9" sample_hass); reflexivity.
  - apply (delete_entry_response
             (config_entries.async_remove (fun _ => false))
             (mkRequest admin VNone) "E1" sample_hass); reflexivity.
Defined.

(** ** Listing the flows in progress *)

Lemma not_user_flow_summary (f : Flow) (src : value) :
  context f !! "source" = Some src ->
  ConfigManagerFlowIndexView.not_user_flow (config_entries.flow_summary f)
  = ok (ne_str src config_entries.SOURCE_USER).
Proof.
  intros Hsrc.
  unfold ConfigManagerFlowIndexView.not_user_flow, config_entries.flow_summary,
    subscript at 1.
  rewrite (getitem_Some _ _ (VDict (context f))); [| by simplify_map_eq].
  simpl. by rewrite (getitem_Some _ _ _ Hsrc).
Qed.

Lemma comprehension_if_summaries (flows : list Flow) :
  (forall f, In f flows -> is_Some (context f !! "source")) ->
  comprehension_if ConfigManagerFlowIndexView.not_user_flow
    (config_entries.flow_summary <$> flows)
  = ok (config_entries.flow_summary <$> List.filter not_started_by_user flows).
Proof.
  induction flows as [| f flows IH]; intros Hsrc; [reflexivity |].
  destruct (Hsrc f) as [src Hf]; [by left |].
  rewrite fmap_cons. cbn [comprehension_if].
  rewrite (not_user_flow_summary f src Hf). cbn [bind ok].
  rewrite IH by (intros g Hg; apply Hsrc; by right). cbn [bind ok].
  cbn [List.filter]. unfold not_started_by_user at 3. rewrite Hf.
  by destruct (ne_str src config_entries.SOURCE_USER).
Qed.

Lemma flow_summary_keys (f : Flow) :
  exists d,
    config_entries.flow_summary f = VDict d
    /\ dom d = summary_keys
    /\ d !! "handler_instance" = None.
Proof.
  eexists. split; [reflexivity |]. split.
  - rewrite !dom_insert_L, dom_empty_L. unfold summary_keys. set_solver.
  - by simplify_map_eq.
Qed.

(** C8. For an admin, and when every flow in progress names a source in its
    context, the GET of the config-flow index returns, without changing
    [hass], the summaries of exactly the flows in progress whose source is
    not USER, in their order; each returned summary has the keys [flow_id],
    [handler_key], [context] and [current_step_id] and no [handler_instance]
    key. *)
Theorem flow_index_get_snapshot (request : Request) (h : HomeAssistant) :
  is_admin (hass_user request) = true ->
  (forall f, In f (progress h) -> is_Some (context f !! "source")) ->
  exists shown,
    ConfigManagerFlowIndexView.get request h = (ok (json (VList shown)), h)
    /\ shown = config_entries.flow_summary
                 <$> List.filter not_started_by_user (progress h)
    /\ (forall s,
          In s shown <->
          exists f src,
            In f (progress h)
            /\ s = config_entries.flow_summary f
            /\ context f !! "source" = Some src
            /\ src <> VStr config_entries.SOURCE_USER)
    /\ (forall s,
          In s shown ->
          exists d, s = VDict d
                    /\ dom d = summary_keys
                    /\ d !! "handler_instance" = None).
Proof.
  intros Hadmin Hsrc.
  exists (config_entries.flow_summary
            <$> List.filter not_started_by_user (progress h)).
  split; [| split; [reflexivity | split]].
  - unfold ConfigManagerFlowIndexView.get, bindM, gets, lift, ret,
      config_entries.async_progress.
    rewrite Hadmin. simpl.
    by rewrite comprehension_if_summaries.
  - intros s. rewrite in_map_iff. split.
    + intros (f & <- & Hf). apply filter_In in Hf as [Hin Hkeep].
      unfold not_started_by_user in Hkeep.
      destruct (context f !! "source") as [src|] eqn:Hf; [| discriminate].
      exists f, src. by rewrite <- ne_str_true.
    + intros (f & src & Hin & -> & Hf & Hne).
      exists f. split; [reflexivity |]. apply filter_In. split; [done |].
      unfold not_started_by_user. rewrite Hf. by apply ne_str_true.
  - intros s Hs. apply in_map_iff in Hs as (f & <- & _).
    apply flow_summary_keys.
Qed.

Lemma flow_index_get_snapshot_witness :
  exists shown,
    ConfigManagerFlowIndexView.get (mkRequest admin VNone) sample_hass
    = (ok (json (VList shown)), sample_hass)
    /\ shown = [config_entries.flow_summary (sample_flow "F2" "discovery")].
Proof.
  destruct (flow_index_get_snapshot (mkRequest admin VNone) sample_hass)
    as (shown & Hget & Hshown & _).
  - reflexivity.
  - intros f [<- | [<- | []]]; eexists; reflexivity.
  - exists shown. split; [exact Hget | exact Hshown].
Defined.

(** ** Listing the entries *)

Lemma callable_ne_true (f g : config_entries.callable) :
  config_entries.callable_ne f g = true <-> f <> g.
Proof.
  destruct f as [a], g as [b]. simpl.
  rewrite negb_true_iff, String.eqb_neq. split; congruence.
Qed.

Lemma entry_json_shows (HANDLERS : gmap string config_entries.Handler)
    (entry : ConfigEntry) :
  shows_entry HANDLERS entry
    (ConfigManagerEntryIndexView.entry_json HANDLERS entry).
Proof.
  eexists. split; [reflexivity |].
  split.
  { rewrite !dom_insert_L, dom_empty_L. unfold entry_keys. set_solver. }
  do 8 (split; [by simplify_map_eq |]).
  exists (ConfigManagerEntryIndexView.supports_options HANDLERS entry).
  split; [by simplify_map_eq |].
  unfold ConfigManagerEntryIndexView.supports_options.
  destruct (HANDLERS !! domain entry) as [handler|].
  - rewrite callable_ne_true. split; [by eauto |].
    by intros (? & [= <-] & ?).
  - split; [discriminate | by intros (? & ? & _)].
Qed.

(** C9. The entry list answers, without changing [hass], with one dictionary
    per config entry, in the registry's order; each has exactly the keys
    [entry_id], [domain], [title], [source], [state], [connection_class] and
    [supports_options], holding the entry's attributes, and so neither the
    entry's [data] nor its [system_options]; [supports_options] is true
    exactly when a handler is registered for the entry's domain and its
    [async_get_options_flow] is not the one of the base [ConfigFlow]. *)
Theorem entry_index_lists_public_fields
  (HANDLERS : gmap string config_entries.Handler)
  (request : Request) (h : HomeAssistant) :
  exists results,
    ConfigManagerEntryIndexView.get HANDLERS request h
    = (ok (json (VList results)), h)
    /\ Forall2 (shows_entry HANDLERS) (entries h) results.
Proof.
  exists (ConfigManagerEntryIndexView.entry_json HANDLERS <$> entries h).
  split; [reflexivity |].
  induction (entries h) as [| entry l IH]; [constructor |].
  rewrite fmap_cons. constructor; [apply entry_json_shows | exact IH].
Qed.

(** ** The system-options commands *)

Lemma pop_envelope_ok (msg : dict) (iden ty eid : value) :
  msg !! "id" = Some iden ->
  msg !! "type" = Some ty ->
  msg !! "entry_id" = Some eid ->
  pop_envelope msg
  = ok (eid, delete "entry_id" (delete "type" (delete "id" msg))).
Proof.
  intros Hid Hty Heid. unfold pop_envelope.
  rewrite (pop_Some _ _ _ Hid). cbn [bind ok snd].
  rewrite (pop_Some _ _ ty) by (by rewrite lookup_delete_ne). cbn [bind ok snd].
  by rewrite (pop_Some _ _ eid) by (by rewrite !lookup_delete_ne).
Qed.

Section update.

Variable async_update_entry : ConfigEntry -> dict -> M HomeAssistant ConfigEntry.
Variables (msg : dict) (iden ty eid : value) (w : World).
Hypothesis Hid : msg !! "id" = Some iden.
Hypothesis Hty : msg !! "type" = Some ty.
Hypothesis Heid : msg !! "entry_id" = Some eid.

Lemma system_options_update_not_found :
  config_entries.async_get_entry (hass w) eid = None ->
  system_options_update async_update_entry msg w
  = send_error iden const.ERR_NOT_FOUND "Config entry not found" w.
Proof.
  intros Hnone. unfold system_options_update, bindM, lift, gets.
  rewrite (pop_envelope_ok msg iden ty eid Hid Hty Heid). cbn [ok fst snd].
  rewrite Hnone. by rewrite (getitem_Some _ _ _ Hid).
Qed.

Lemma system_options_update_found (entry : ConfigEntry) :
  config_entries.async_get_entry (hass w) eid = Some entry ->
  system_options_update async_update_entry msg w
  = (let! entry' :=
       on_hass (async_update_entry entry
                  (delete "entry_id" (delete "type" (delete "id" msg)))) in
     send_result iden (config_entries.as_dict (system_options entry'))) w.
Proof.
  intros Hsome. unfold system_options_update, bindM, lift, gets.
  rewrite (pop_envelope_ok msg iden ty eid Hid Hty Heid). cbn [ok fst snd].
  rewrite Hsome.
  destruct (on_hass _ w) as [[err|entry'] w']; [reflexivity |].
  by rewrite (getitem_Some _ _ _ Hid).
Qed.

End update.

Lemma find_store_entry (s : string) (e e' : ConfigEntry) (l : list ConfigEntry) :
  List.find (fun x => String.eqb (entry_id x) s) l = Some e ->
  entry_id e' = s ->
  List.find (fun x => String.eqb (entry_id x) s) (config_entries.store_entry e' l)
  = Some e'.
Proof.
  intros Hfind <-. induction l as [| x l IH]; [discriminate |].
  cbn [List.find config_entries.store_entry] in *.
  destruct (String.eqb (entry_id x) (entry_id e')) eqn:Hx.
  - cbn [List.find]. by rewrite String.eqb_refl.
  - cbn [List.find]. rewrite Hx. by apply IH.
Qed.

Lemma async_get_entry_id (h : HomeAssistant) (eid : value) (e : ConfigEntry) :
  config_entries.async_get_entry h eid = Some e -> eid = VStr (entry_id e).
Proof.
  unfold config_entries.async_get_entry. destruct eid; try discriminate.
  intros Hfind. apply find_some in Hfind as [_ Heq].
  apply String.eqb_eq in Heq. by subst.
Qed.

Lemma SystemOptions_update_envelope (o : SystemOptions) (msg : dict) :
  config_entries.SystemOptions_update o
    (delete "entry_id" (delete "type" (delete "id" msg)))
  = config_entries.SystemOptions_update o msg.
Proof.
  unfold config_entries.SystemOptions_update.
  by rewrite !lookup_delete_ne.
Qed.

(** C3, defect. For the unknown entry id E9 the list command returns without
    sending anything on the connection, where the update command answers the
    same unknown id with a not-found error. *)
Theorem system_options_list_unknown_entry_is_silent :
  system_options_list_command (list_msg "E9") (sample_world admin)
  = (ok tt, sample_world admin)
  /\ sent (connection (snd (system_options_list_command (list_msg "E9")
                              (sample_world admin)))) = []
  /\ sent (connection (snd (system_options_update_command (update_msg "E9" ∅)
                              (sample_world admin))))
     = [error_message (VInt 5) const.ERR_NOT_FOUND "Config entry not found"].
Proof. vm_compute. repeat split. Qed.

(** Whatever the registry and the connection hold, a list request for an id
    that resolves to no entry sends nothing. *)
Lemma system_options_list_not_found (msg : dict) (eid : value) (w : World) :
  msg !! "entry_id" = Some eid ->
  config_entries.async_get_entry (hass w) eid = None ->
  system_options_list msg w = (ok tt, w).
Proof.
  intros Heid Hnone. unfold system_options_list, bindM, lift, gets.
  rewrite (getitem_Some _ _ _ Heid). cbn [ok]. by rewrite Hnone.
Qed.

(** What the update does to a known entry, with the registry of the spec. *)
Lemma system_options_update_merges
  (msg : dict) (iden ty eid : value) (w : World) (entry : ConfigEntry) :
  msg !! "id" = Some iden ->
  msg !! "type" = Some ty ->
  msg !! "entry_id" = Some eid ->
  config_entries.async_get_entry (hass w) eid = Some entry ->
  let entry' :=
    config_entries.with_system_options entry
      (config_entries.SystemOptions_update (system_options entry) msg) in
  system_options_update config_entries.async_update_entry msg w
  = (ok tt,
     mkWorld
       (mkHass (config_entries.store_entry entry' (entries (hass w)))
               (progress (hass w)))
       (mkConnection (user (connection w))
          (sent (connection w)
           ++ [result_message iden
                 (config_entries.as_dict (system_options entry'))])%list))
  /\ config_entries.async_get_entry
       (mkHass (config_entries.store_entry entry' (entries (hass w)))
               (progress (hass w))) eid
     = Some entry'.
Proof.
  intros Hid Hty Heid Hsome entry'. split.
  - rewrite (system_options_update_found _ msg iden ty eid w Hid Hty Heid
               entry Hsome).
    unfold bindM, on_hass, config_entries.async_update_entry, send_result,
      modify.
    rewrite SystemOptions_update_envelope. reflexivity.
  - pose proof (async_get_entry_id _ _ _ Hsome) as ->.
    unfold config_entries.async_get_entry in *. cbn [entries].
    by apply find_store_entry with (e := entry).
Qed.

(** C4. A system-options update whose entry id resolves to no config entry
    sends the error [ERR_NOT_FOUND] with the text "Config entry not found"
    under the message's id and never calls the entry update, so the registry
    is as it was. One whose entry id resolves to an entry calls the entry
    update on that entry and, when the update returns, sends under the
    message's id the system options the entry has after it. With the
    registry of the spec the update always returns: the patch is merged into
    the entry's system options in the registry, and those are what is sent. *)
Theorem system_options_update_response
  (async_update_entry : ConfigEntry -> dict -> M HomeAssistant ConfigEntry)
  (msg : dict) (iden ty eid : value) (w : World) :
  msg !! "id" = Some iden ->
  msg !! "type" = Some ty ->
  msg !! "entry_id" = Some eid ->
  (config_entries.async_get_entry (hass w) eid = None ->
   system_options_update async_update_entry msg w
   = (ok tt,
      mkWorld (hass w)
        (mkConnection (user (connection w))
           (sent (connection w)
            ++ [error_message iden const.ERR_NOT_FOUND
                  "Config entry not found"])%list)))
  /\ (forall entry entry' h',
      config_entries.async_get_entry (hass w) eid = Some entry ->
      async_update_entry entry
        (delete "entry_id" (delete "type" (delete "id" msg))) (hass w)
      = (ok entry', h') ->
      system_options_update async_update_entry msg w
      = (ok tt,
         mkWorld h'
           (mkConnection (user (connection w))
              (sent (connection w)
               ++ [result_message iden
                     (config_entries.as_dict (system_options entry'))])%list)))
  /\ (forall entry,
      config_entries.async_get_entry (hass w) eid = Some entry ->
      let entry' :=
        config_entries.with_system_options entry
          (config_entries.SystemOptions_update (system_options entry) msg) in
      exists w',
        system_options_update config_entries.async_update_entry msg w
        = (ok tt, w')
        /\ config_entries.async_get_entry (hass w') eid = Some entry'
        /\ entries (hass w')
           = config_entries.store_entry entry' (entries (hass w))
        /\ progress (hass w') = progress (hass w)
        /\ user (connection w') = user (connection w)
        /\ sent (connection w')
           = (sent (connection w)
              ++ [result_message iden
                    (config_entries.as_dict (system_options entry'))])%list).
Proof.
  intros Hid Hty Heid. split; [| split].
  - intros Hnone.
    by rewrite (system_options_update_not_found _ msg iden ty eid w).
  - intros entry entry' h' Hsome Hupd.
    rewrite (system_options_update_found _ msg iden ty eid w Hid Hty Heid
               entry Hsome).
    unfold bindM, on_hass. by rewrite Hupd.
  - intros entry Hsome entry'.
    destruct (system_options_update_merges msg iden ty eid w entry
                Hid Hty Heid Hsome) as [Hrun Hget].
    eexists. split; [exact Hrun |]. split; [exact Hget |]. repeat split.
Qed.

Lemma system_options_update_response_witness :
  system_options_update config_entries.async_update_entry
    (update_msg "E9" {[ "disable_new_entities" := VBool true ]})
    (sample_world admin)
  = (ok tt,
     mkWorld sample_hass
       (mkConnection admin
          [error_message (VInt 5) const.ERR_NOT_FOUND "Config entry not found"]))
  /\ exists w',
      system_options_update config_entries.async_update_entry
        (update_msg "E1" {[ "disable_new_entities" := VBool true ]})
        (sample_world admin)
      = (ok tt, w')
      /\ sent (connection w')
         = [result_message (VInt 5)
              (VDict {[ "disable_new_entities" := VBool true ]})].
Proof.
  split.
  - apply (system_options_update_response
             config_entries.async_update_entry
             (update_msg "E9" {[ "disable_new_entities" := VBool true ]})
             (VInt 5) (VStr "config_entries/system_options/update")
             (VStr "E9") (sample_world admin)); reflexivity.
  - destruct (system_options_update_response
                config_entries.async_update_entry
                (update_msg "E1" {[ "disable_new_entities" := VBool true ]})
                (VInt 5) (VStr "config_entries/system_options/update")
                (VStr "E1") (sample_world admin)) as (_ & _ & Hfound);
      [reflexivity .. |].
    destruct (Hfound sample_entry) as (w' & Hrun & _ & _ & _ & _ & Hsent);
      [reflexivity |].
    exists w'. split; [exact Hrun | exact Hsent].
Defined.

(** * Further properties of the module *)

Lemma getitem_None (d : dict) (k : string) :
  d !! k = None -> getitem d k = raise (KeyError k).
Proof. unfold getitem. by intros ->. Qed.

Lemma pop_None (d : dict) (k : string) :
  d !! k = None -> pop d k = raise (KeyError k).
Proof. unfold pop. by intros ->. Qed.

(** ** [_prepare_json]: failures and what is kept *)

(** X1. [_prepare_json] raises [KeyError] for a result without a "type", and
    for a FORM result without a "data_schema"; for a FORM result whose
    schema is not [None], an exception of the schema conversion is raised
    unchanged. *)
Theorem prepare_json_failures
  (convert : value -> exc value) (result : dict) :
  (result !! "type" = None ->
   _prepare_json convert result = raise (KeyError "type"))
  /\ (result !! "type" = Some (VStr data_entry_flow.RESULT_TYPE_FORM) ->
      result !! "data_schema" = None ->
      _prepare_json convert result = raise (KeyError "data_schema"))
  /\ (forall schema e,
      result !! "type" = Some (VStr data_entry_flow.RESULT_TYPE_FORM) ->
      result !! "data_schema" = Some schema ->
      schema <> VNone ->
      convert schema = raise e ->
      _prepare_json convert result = raise e).
Proof.
  unfold _prepare_json. split; [| split].
  - intros Hty. by rewrite (getitem_None _ _ Hty).
  - intros Hty Hschema. rewrite (getitem_Some _ _ _ Hty). simpl.
    by rewrite (getitem_None _ _ Hschema).
  - intros schema e Hty Hschema Hnone Hconv.
    rewrite (getitem_Some _ _ _ Hty). simpl.
    rewrite (getitem_Some _ _ _ Hschema). simpl.
    destruct schema; try congruence; by rewrite Hconv.
Qed.

Lemma prepare_json_failures_witness :
  _prepare_json sample_convert (∅ : dict) = raise (KeyError "type")
  /\ _prepare_json sample_convert
       (<["type" := VStr data_entry_flow.RESULT_TYPE_FORM]> ∅)
     = raise (KeyError "data_schema")
  /\ _prepare_json sample_convert (form_result (VInt 3)) = raise TypeError.
Proof.
  split; [| split].
  - apply (prepare_json_failures sample_convert ∅). reflexivity.
  - apply (prepare_json_failures sample_convert
             (<["type" := VStr data_entry_flow.RESULT_TYPE_FORM]> ∅));
      reflexivity.
  - destruct (prepare_json_failures sample_convert (form_result (VInt 3)))
      as (_ & _ & H).
    apply (H (VInt 3)); [reflexivity .. | discriminate | reflexivity].
Defined.

(** X2. Whatever [_prepare_json] returns has the keys of the result it was
    given and the same value under every key other than "data_schema"; the
    schema it returns is [None] only if the conversion produced [None]. *)
Theorem prepare_json_keeps_other_keys
  (convert : value -> exc value) (result d : dict) :
  _prepare_json convert result = ok d ->
  dom d = dom result
  /\ (forall k, k <> "data_schema" -> d !! k = result !! k)
  /\ (result !! "type" = Some (VStr data_entry_flow.RESULT_TYPE_FORM) ->
      d !! "data_schema" = Some VNone ->
      exists schema, result !! "data_schema" = Some schema
                     /\ convert schema = ok VNone).
Proof.
  unfold _prepare_json.
  destruct (getitem result "type") as [|ty] eqn:Hty; [discriminate |].
  apply getitem_ok_inv in Hty. simpl.
  destruct (ne_str ty data_entry_flow.RESULT_TYPE_FORM) eqn:Hne.
  { intros [= <-]. split; [done |]. split; [done |].
    intros Hform. rewrite Hform in Hty. injection Hty as <-.
    by rewrite (proj2 (ne_str_false _ _) eq_refl) in Hne. }
  destruct (getitem result "data_schema") as [|schema] eqn:Hschema;
    [discriminate |].
  apply getitem_ok_inv in Hschema. simpl.
  assert (forall fields,
    dom (<["data_schema" := fields]> result) = dom result
    /\ forall k, k <> "data_schema" ->
                 <["data_schema" := fields]> result !! k = result !! k)
    as Hkeep.
  { intros fields. split.
    - rewrite dom_insert_L.
      assert ("data_schema" ∈ dom result) by (apply elem_of_dom; eauto).
      set_solver.
    - intros k Hk. by rewrite lookup_insert_ne. }
  assert ((let* fields := convert schema in
           ok (<["data_schema" := fields]> result)) = ok d ->
          dom d = dom result
          /\ (forall k, k <> "data_schema" -> d !! k = result !! k)
          /\ (result !! "type"
              = Some (VStr data_entry_flow.RESULT_TYPE_FORM) ->
              d !! "data_schema" = Some VNone ->
              exists schema0, result !! "data_schema" = Some schema0
                              /\ convert schema0 = ok VNone)) as Hconv.
  { destruct (convert schema) as [|fields] eqn:Hc; [discriminate |].
    simpl. intros [= <-]. destruct (Hkeep fields) as [H1 H2].
    split; [done |]. split; [done |].
    intros _. rewrite lookup_insert_eq. intros [= ->]. eauto. }
  destruct schema; try exact Hconv.
  intros [= <-]. destruct (Hkeep (VList [])) as [H1 H2].
  split; [done |]. split; [done |].
  intros _. by rewrite lookup_insert_eq.
Qed.

Lemma prepare_json_keeps_other_keys_witness :
  dom (<["data_schema" := VList []]> (form_result VNone))
  = dom (form_result VNone).
Proof.
  apply (prepare_json_keeps_other_keys sample_convert (form_result VNone)).
  reflexivity.
Defined.

(** ** [_prepare_result_json]: failures and what is kept *)

Section prepare_result_json_more.

Variable sup : dict -> exc dict.
Variable result : dict.
Hypothesis Hty :
  result !! "type" = Some (VStr data_entry_flow.RESULT_TYPE_CREATE_ENTRY).

Lemma index_prepare_no_result :
  result !! "result" = None ->
  ConfigManagerFlowIndexView._prepare_result_json sup result
  = raise (KeyError "result").
Proof.
  intros Hres. unfold ConfigManagerFlowIndexView._prepare_result_json.
  rewrite (getitem_Some _ _ _ Hty). simpl.
  by rewrite (getitem_None _ _ Hres).
Qed.

Lemma index_prepare_not_entry (v : value) :
  result !! "result" = Some v ->
  (forall e, v <> VEntry e) ->
  ConfigManagerFlowIndexView._prepare_result_json sup result
  = raise (AttributeError "entry_id").
Proof.
  intros Hres Hv. unfold ConfigManagerFlowIndexView._prepare_result_json.
  rewrite (getitem_Some _ _ _ Hty). simpl.
  rewrite (getitem_Some _ _ _ Hres). simpl.
  destruct v; try reflexivity. by destruct (Hv e).
Qed.

Lemma index_prepare_no_data (e : ConfigEntry) :
  result !! "result" = Some (VEntry e) ->
  result !! "data" = None ->
  ConfigManagerFlowIndexView._prepare_result_json sup result
  = raise (KeyError "data").
Proof.
  intros Hres Hdata. unfold ConfigManagerFlowIndexView._prepare_result_json.
  rewrite (getitem_Some _ _ _ Hty). simpl.
  rewrite (getitem_Some _ _ _ Hres). simpl.
  rewrite pop_None; [done |]. by rewrite lookup_insert_ne.
Qed.

End prepare_result_json_more.

(** X3. Both [_prepare_result_json] methods raise [KeyError] for a result
    without a "type"; for a CREATE_ENTRY result they raise [KeyError] when
    "result" is missing, [AttributeError] when "result" is not a config
    entry (whether or not "data" is there), and [KeyError] when the entry
    is there but "data" is missing. *)
Theorem prepare_result_json_failures
  (sup_index sup_resource : dict -> exc dict) (result : dict) :
  (result !! "type" = None ->
   ConfigManagerFlowIndexView._prepare_result_json sup_index result
   = raise (KeyError "type")
   /\ ConfigManagerFlowResourceView._prepare_result_json sup_resource result
      = raise (KeyError "type"))
  /\ (result !! "type" = Some (VStr data_entry_flow.RESULT_TYPE_CREATE_ENTRY) ->
      (result !! "result" = None ->
       ConfigManagerFlowIndexView._prepare_result_json sup_index result
       = raise (KeyError "result")
       /\ ConfigManagerFlowResourceView._prepare_result_json sup_resource result
          = raise (KeyError "result"))
      /\ (forall v,
          result !! "result" = Some v ->
          (forall e, v <> VEntry e) ->
          ConfigManagerFlowIndexView._prepare_result_json sup_index result
          = raise (AttributeError "entry_id")
          /\ ConfigManagerFlowResourceView._prepare_result_json sup_resource result
             = raise (AttributeError "entry_id"))
      /\ (forall e,
          result !! "result" = Some (VEntry e) ->
          result !! "data" = None ->
          ConfigManagerFlowIndexView._prepare_result_json sup_index result
          = raise (KeyError "data")
          /\ ConfigManagerFlowResourceView._prepare_result_json sup_resource result
             = raise (KeyError "data"))).
Proof.
  split.
  - intros Hty.
    unfold ConfigManagerFlowIndexView._prepare_result_json,
      ConfigManagerFlowResourceView._prepare_result_json.
    by rewrite (getitem_None _ _ Hty).
  - intros Hty. split; [| split].
    + intros Hres. split;
        [| rewrite <- (index_prepare_resource_same sup_resource result)];
        by apply index_prepare_no_result.
    + intros v Hres Hv. split;
        [| rewrite <- (index_prepare_resource_same sup_resource result)];
        by eapply index_prepare_not_entry.
    + intros e Hres Hdata. split;
        [| rewrite <- (index_prepare_resource_same sup_resource result)];
        by eapply index_prepare_no_data.
Qed.

Lemma prepare_result_json_failures_witness :
  ConfigManagerFlowIndexView._prepare_result_json ok (∅ : dict)
  = raise (KeyError "type")
  /\ ConfigManagerFlowIndexView._prepare_result_json ok
       (delete "result" create_entry_result)
     = raise (KeyError "result")
  /\ ConfigManagerFlowResourceView._prepare_result_json ok
       (<["result" := VStr "E1"]> (delete "data" create_entry_result))
     = raise (AttributeError "entry_id")
  /\ ConfigManagerFlowResourceView._prepare_result_json ok
       (delete "data" create_entry_result)
     = raise (KeyError "data").
Proof.
  split; [| split; [| split]].
  - destruct (prepare_result_json_failures ok ok ∅) as [H _].
    apply H. reflexivity.
  - destruct (prepare_result_json_failures ok ok
                (delete "result" create_entry_result)) as [_ H].
    destruct H as (H & _ & _); [reflexivity |].
    apply H. reflexivity.
  - destruct (prepare_result_json_failures ok ok
                (<["result" := VStr "E1"]> (delete "data" create_entry_result)))
      as [_ H].
    destruct H as (_ & H & _); [reflexivity |].
    apply (H (VStr "E1")); [reflexivity | discriminate].
  - destruct (prepare_result_json_failures ok ok
                (delete "data" create_entry_result)) as [_ H].
    destruct H as (_ & _ & H); [reflexivity |].
    apply (H sample_entry); reflexivity.
Defined.

(** X4. What either method returns for a CREATE_ENTRY result has the keys of
    the result without "data", still has the type CREATE_ENTRY, and holds a
    string under "result"; so preparing it a second time raises
    [AttributeError]: the preparation cannot be applied twice. *)
Theorem prepare_result_json_once
  (sup_index sup_resource : dict -> exc dict) (result d : dict) :
  result !! "type" = Some (VStr data_entry_flow.RESULT_TYPE_CREATE_ENTRY) ->
  ConfigManagerFlowIndexView._prepare_result_json sup_index result = ok d
  \/ ConfigManagerFlowResourceView._prepare_result_json sup_resource result = ok d ->
  dom d = dom result ∖ {[ "data" ]}
  /\ d !! "type" = Some (VStr data_entry_flow.RESULT_TYPE_CREATE_ENTRY)
  /\ (exists s, d !! "result" = Some (VStr s))
  /\ ConfigManagerFlowIndexView._prepare_result_json sup_index d
     = raise (AttributeError "entry_id")
  /\ ConfigManagerFlowResourceView._prepare_result_json sup_resource d
     = raise (AttributeError "entry_id").
Proof.
  intros Hty Hd.
  assert (exists sup,
    ConfigManagerFlowIndexView._prepare_result_json sup result = ok d)
    as [sup Hsup].
  { destruct Hd as [Hd | Hd]; [by eexists |].
    exists sup_resource. by rewrite index_prepare_resource_same. }
  destruct (index_prepare_create_entry_inv sup result d Hty Hsup)
    as (e & payload & Hres & Hdata).
  rewrite (index_prepare_create_entry sup result e payload Hty Hres Hdata)
    in Hsup.
  injection Hsup as <-.
  assert (delete "data" (<["result" := VStr (entry_id e)]> result) !! "type"
          = Some (VStr data_entry_flow.RESULT_TYPE_CREATE_ENTRY)) as Hty'.
  { rewrite lookup_delete_ne by done. by rewrite lookup_insert_ne. }
  assert (delete "data" (<["result" := VStr (entry_id e)]> result) !! "result"
          = Some (VStr (entry_id e))) as Hres'.
  { rewrite lookup_delete_ne by done. apply lookup_insert_eq. }
  split.
  { rewrite dom_delete_L, dom_insert_L.
    assert ("result" ∈ dom result) by (apply elem_of_dom; eauto).
    set_solver. }
  split; [exact Hty' |]. split; [by eauto |].
  split; [| rewrite <- index_prepare_resource_same];
    by eapply index_prepare_not_entry.
Qed.

Lemma prepare_result_json_once_witness :
  exists d,
    ConfigManagerFlowIndexView._prepare_result_json ok create_entry_result = ok d
    /\ ConfigManagerFlowIndexView._prepare_result_json ok d
       = raise (AttributeError "entry_id").
Proof.
  eexists. split; [reflexivity |].
  eapply (prepare_result_json_once ok ok create_entry_result);
    [reflexivity | left; reflexivity].
Defined.

(** ** The views without a gate *)

Lemma entry_json_public (HANDLERS : gmap string config_entries.Handler)
    (e1 e2 : ConfigEntry) :
  same_public_fields e1 e2 ->
  ConfigManagerEntryIndexView.entry_json HANDLERS e1
  = ConfigManagerEntryIndexView.entry_json HANDLERS e2.
Proof.
  intros (Hid & Hdom & Htitle & Hsrc & Hstate & Hcls).
  unfold ConfigManagerEntryIndexView.entry_json,
    ConfigManagerEntryIndexView.supports_options.
  by rewrite Hid, Hdom, Htitle, Hsrc, Hstate, Hcls.
Qed.

Lemma entry_json_public_list (HANDLERS : gmap string config_entries.Handler)
    (l1 l2 : list ConfigEntry) :
  Forall2 same_public_fields l1 l2 ->
  ConfigManagerEntryIndexView.entry_json HANDLERS <$> l1
  = ConfigManagerEntryIndexView.entry_json HANDLERS <$> l2.
Proof.
  induction 1 as [| e1 e2 l1 l2 He _ IH]; [reflexivity |].
  rewrite !fmap_cons, IH. by rewrite (entry_json_public HANDLERS e1 e2 He).
Qed.

(** X5. The entry list reads nothing but the six public attributes of an
    entry and the handler registry: two registries whose entries agree
    pairwise on those attributes get the same answer, whatever their
    entries' [data] and [system_options] are, whatever flows are in
    progress, and whoever asks, admin or not. *)
Theorem entry_index_reads_public_fields_only
  (HANDLERS : gmap string config_entries.Handler)
  (request1 request2 : Request) (h1 h2 : HomeAssistant) :
  Forall2 same_public_fields (entries h1) (entries h2) ->
  fst (ConfigManagerEntryIndexView.get HANDLERS request1 h1)
  = fst (ConfigManagerEntryIndexView.get HANDLERS request2 h2).
Proof.
  intros Hsame.
  change (ok (json (VList (ConfigManagerEntryIndexView.entry_json HANDLERS
                             <$> entries h1)))
          = ok (json (VList (ConfigManagerEntryIndexView.entry_json HANDLERS
                               <$> entries h2)))).
  by rewrite (entry_json_public_list HANDLERS _ _ Hsame).
Qed.

Lemma entry_index_reads_public_fields_only_witness :
  fst (ConfigManagerEntryIndexView.get ∅ (mkRequest admin VNone) sample_hass)
  = fst (ConfigManagerEntryIndexView.get ∅ (mkRequest guest VNone)
           (mkHass [sample_entry_private] [])).
Proof.
  apply entry_index_reads_public_fields_only.
  repeat constructor.
Defined.

(** X6. The list of available flow handlers has no gate either: it answers
    a caller who is not an admin exactly as it answers an admin, with the
    handlers the loader returns as JSON, and an exception of the loader is
    raised unchanged. *)
Theorem available_flows_not_gated
  (async_get_config_flows : M HomeAssistant value)
  (request : Request) (h : HomeAssistant) :
  ConfigManagerAvailableFlowView.get async_get_config_flows request h
  = ConfigManagerAvailableFlowView.get async_get_config_flows
      (mkRequest (mkUser (negb (is_admin (hass_user request)))) (body request)) h
  /\ (forall flows h',
      async_get_config_flows h = (ok flows, h') ->
      ConfigManagerAvailableFlowView.get async_get_config_flows request h
      = (ok (json flows), h'))
  /\ (forall e h',
      async_get_config_flows h = (raise e, h') ->
      ConfigManagerAvailableFlowView.get async_get_config_flows request h
      = (raise e, h')).
Proof.
  unfold ConfigManagerAvailableFlowView.get, bindM, ret.
  split; [reflexivity |].
  split; [intros flows h' Hf | intros e h' Hf]; by rewrite Hf.
Qed.

Lemma available_flows_not_gated_witness :
  ConfigManagerAvailableFlowView.get sample_config_flows
    (mkRequest guest VNone) sample_hass
  = (ok (json (VList [VStr "demo"])), sample_hass).
Proof.
  apply (available_flows_not_gated sample_config_flows
           (mkRequest guest VNone) sample_hass).
  reflexivity.
Defined.

(** ** Deleting an entry: other failures *)

(** X7. For an admin, an exception of the removal other than [UnknownEntry]
    is not caught: the delete raises it unchanged and leaves [hass] as the
    removal left it. *)
Theorem delete_entry_propagates_other_errors
  (async_remove : string -> M HomeAssistant value)
  (request : Request) (entry_id : string) (h h' : HomeAssistant) (e : exn) :
  is_admin (hass_user request) = true ->
  async_remove entry_id h = (raise e, h') ->
  e <> UnknownEntry ->
  ConfigManagerEntryResourceView.delete async_remove request entry_id h
  = (raise e, h').
Proof.
  intros Hadmin Hrm He.
  unfold ConfigManagerEntryResourceView.delete, except_UnknownEntry, bindM.
  rewrite Hadmin. simpl. rewrite Hrm.
  by destruct e.
Qed.

Lemma delete_entry_propagates_other_errors_witness :
  ConfigManagerEntryResourceView.delete failing_remove
    (mkRequest admin VNone) "E1" sample_hass
  = (raise (OtherError "unload crashed"), sample_hass).
Proof.
  apply (delete_entry_propagates_other_errors failing_remove
           (mkRequest admin VNone) "E1" sample_hass sample_hass
           (OtherError "unload crashed"));
    [reflexivity | reflexivity | discriminate].
Defined.

(** ** The gate on the flow views *)



(** ** The filter of the flow index *)

Lemma not_user_flow_source (flw : value) :
  match source_of flw with
  | Some src =>
      ConfigManagerFlowIndexView.not_user_flow flw
      = ok (ne_str src config_entries.SOURCE_USER)
  | None => exists e, ConfigManagerFlowIndexView.not_user_flow flw = raise e
  end.
Proof.
  unfold ConfigManagerFlowIndexView.not_user_flow, source_of.
  destruct flw; try (by eexists). simpl. unfold getitem.
  destruct (d !! "context") as [ctx|]; [| by eexists]. simpl.
  destruct ctx; try (by eexists). simpl. unfold getitem.
  destruct (d0 !! "source"); [done | by eexists].
Qed.

(** X9. The comprehension of the flow index GET returns a list exactly when
    every summary it is given is a dictionary whose "context" is a
    dictionary with a "source"; the list is then the summaries whose source
    is not USER, in their order, each as it was given. *)
Theorem flow_filter_characterised (flows shown : list value) :
  comprehension_if ConfigManagerFlowIndexView.not_user_flow flows = ok shown
  <-> (forall flw, In flw flows -> is_Some (source_of flw))
      /\ shown = List.filter names_other_source flows.
Proof.
  revert shown. induction flows as [| flw flows IH]; intros shown.
  - simpl. split.
    + intros [= <-]. split; [by intros ? [] | done].
    + by intros [_ ->].
  - cbn [comprehension_if List.filter]. unfold names_other_source at 1.
    pose proof (not_user_flow_source flw) as Hflw.
    destruct (source_of flw) as [src|] eqn:Hsrc.
    + rewrite Hflw. cbn [bind ok].
      destruct (comprehension_if _ flows) as [e|rest] eqn:Hrest.
      * split; [discriminate |]. intros [Hall _].
        assert (@inl exn (list value) e
                = ok (List.filter names_other_source flows)) as Hbad.
        { apply IH. split; [| done]. intros x Hx. apply Hall. by right. }
        discriminate Hbad.
      * destruct (proj1 (IH rest) eq_refl) as [Hall ->]. cbn [bind ok].
        split.
        -- intros [= <-]. split; [| done].
           intros x [<- | Hx]; [by rewrite Hsrc | by apply Hall].
        -- by intros [_ ->].
    + destruct Hflw as [e ->]. split; [discriminate |].
      intros [Hall _]. destruct (Hall flw) as [src Hsome]; [by left |].
      congruence.
Qed.

Lemma flow_filter_characterised_witness :
  comprehension_if ConfigManagerFlowIndexView.not_user_flow
    [config_entries.flow_summary (sample_flow "F1" "user");
     config_entries.flow_summary (sample_flow "F2" "discovery")]
  = ok [config_entries.flow_summary (sample_flow "F2" "discovery")].
Proof.
  apply (flow_filter_characterised
           [config_entries.flow_summary (sample_flow "F1" "user");
            config_entries.flow_summary (sample_flow "F2" "discovery")]).
  split; [| reflexivity].
  intros flw [<- | [<- | []]]; eexists; reflexivity.
Defined.

Lemma comprehension_if_sourceless (flows : list Flow) :
  (exists f, In f flows /\ context f !! "source" = None) ->
  comprehension_if ConfigManagerFlowIndexView.not_user_flow
    (config_entries.flow_summary <$> flows)
  = raise (KeyError "source").
Proof.
  induction flows as [| f0 flows IH]; intros (f & Hin & Hnone);
    [by destruct Hin |].
  rewrite fmap_cons. cbn [comprehension_if].
  destruct (context f0 !! "source") as [src|] eqn:Hf0.
  - rewrite (not_user_flow_summary f0 src Hf0). cbn [bind ok].
    rewrite IH; [done |].
    destruct Hin as [-> | Hin]; [congruence | eauto].
  - unfold ConfigManagerFlowIndexView.not_user_flow,
      config_entries.flow_summary, subscript at 1.
    rewrite (getitem_Some _ _ (VDict (context f0))); [| by simplify_map_eq].
    simpl. by rewrite (getitem_None _ _ Hf0).
Qed.

Lemma sourceless_or_not (flows : list Flow) :
  (forall f, In f flows -> is_Some (context f !! "source"))
  \/ (exists f, In f flows /\ context f !! "source" = None).
Proof.
  induction flows as [| f0 flows [IH | (f & Hin & Hnone)]].
  - left. by intros ? [].
  - destruct (context f0 !! "source") as [src|] eqn:Hf0.
    + left. intros f [<- | Hin]; [by rewrite Hf0 | by apply IH].
    + right. exists f0. split; [by left | done].
  - right. exists f. split; [by right | done].
Qed.

(** X10. For an admin, the GET of the config-flow index raises
    [KeyError] for "source", leaving [hass] untouched, exactly when some flow
    in progress has a context without a source: one such flow makes the
    whole listing fail. *)
Theorem flow_index_get_fails_on_sourceless_flow
  (request : Request) (h : HomeAssistant) :
  is_admin (hass_user request) = true ->
  ConfigManagerFlowIndexView.get request h = (raise (KeyError "source"), h)
  <-> exists f, In f (progress h) /\ context f !! "source" = None.
Proof.
  intros Hadmin.
  unfold ConfigManagerFlowIndexView.get, bindM, gets, lift, ret,
    config_entries.async_progress.
  rewrite Hadmin. simpl. split.
  - intros Hraise.
    destruct (sourceless_or_not (progress h)) as [Hall | Hex]; [| done].
    by rewrite (comprehension_if_summaries _ Hall) in Hraise.
  - intros Hex. by rewrite (comprehension_if_sourceless _ Hex).
Qed.

Lemma flow_index_get_fails_on_sourceless_flow_witness :
  ConfigManagerFlowIndexView.get (mkRequest admin VNone)
    (mkHass [] [sample_flow "F2" "discovery"; sourceless_flow])
  = (raise (KeyError "source"),
     mkHass [] [sample_flow "F2" "discovery"; sourceless_flow]).
Proof.
  apply (flow_index_get_fails_on_sourceless_flow (mkRequest admin VNone)
           (mkHass [] [sample_flow "F2" "discovery"; sourceless_flow]));
    [reflexivity |].
  exists sourceless_flow. split; [right; left; reflexivity | reflexivity].
Defined.

(** ** The list command *)

(** X11. For a message with an "id" whose "entry_id" resolves to an entry,
    the list command sends exactly one result message, under the message's
    id, with the entry's system options, and leaves [hass] as it was. A
    message without "entry_id" raises [KeyError], and so does a message
    without "id" once its entry is found; nothing is sent then. *)
Theorem system_options_list_found
  (msg : dict) (w : World) :
  (msg !! "entry_id" = None ->
   system_options_list msg w = (raise (KeyError "entry_id"), w))
  /\ (forall eid entry,
      msg !! "entry_id" = Some eid ->
      config_entries.async_get_entry (hass w) eid = Some entry ->
      (msg !! "id" = None ->
       system_options_list msg w = (raise (KeyError "id"), w))
      /\ (forall iden,
          msg !! "id" = Some iden ->
          system_options_list msg w
          = (ok tt,
             mkWorld (hass w)
               (mkConnection (user (connection w))
                  (sent (connection w)
                   ++ [result_message iden
                         (config_entries.as_dict (system_options entry))])%list)))).
Proof.
  unfold system_options_list, bindM, lift, gets. split.
  - intros Heid. by rewrite (getitem_None _ _ Heid).
  - intros eid entry Heid Hsome.
    rewrite (getitem_Some _ _ _ Heid). cbn [ok]. rewrite Hsome. split.
    + intros Hid. by rewrite (getitem_None _ _ Hid).
    + intros iden Hid. by rewrite (getitem_Some _ _ _ Hid).
Qed.

Lemma system_options_list_found_witness :
  system_options_list (list_msg "E1") (sample_world admin)
  = (ok tt,
     mkWorld sample_hass
       (mkConnection admin
          [result_message (VInt 7)
             (VDict {[ "disable_new_entities" := VBool false ]})]))
  /\ system_options_list (delete "id" (list_msg "E1")) (sample_world admin)
     = (raise (KeyError "id"), sample_world admin)
  /\ system_options_list ∅ (sample_world admin)
     = (raise (KeyError "entry_id"), sample_world admin).
Proof.
  split; [| split].
  - destruct (system_options_list_found (list_msg "E1") (sample_world admin))
      as [_ H].
    destruct (H (VStr "E1") sample_entry) as [_ Hok]; [reflexivity .. |].
    apply (Hok (VInt 7)). reflexivity.
  - destruct (system_options_list_found (delete "id" (list_msg "E1"))
                (sample_world admin)) as [_ H].
    destruct (H (VStr "E1") sample_entry) as [Hno _]; [reflexivity .. |].
    apply Hno. reflexivity.
  - apply (system_options_list_found ∅ (sample_world admin)). reflexivity.
Defined.

(** X12. Whatever the message, the list command never changes [hass] or the
    connection's user, and it sends at most one message: what was sent
    before stays, in order, with nothing or one message after it. *)
Theorem system_options_list_reads_only (msg : dict) (w : World) :
  hass (snd (system_options_list msg w)) = hass w
  /\ user (connection (snd (system_options_list msg w))) = user (connection w)
  /\ (sent (connection (snd (system_options_list msg w)))
      = sent (connection w)
      \/ exists m,
          sent (connection (snd (system_options_list msg w)))
          = (sent (connection w) ++ [m])%list).
Proof.
  unfold system_options_list, bindM, lift, gets.
  destruct (getitem msg "entry_id") as [e|eid]; [by repeat split; left |].
  cbn [ok].
  destruct (config_entries.async_get_entry (hass w) eid) as [entry|];
    [| by repeat split; left].
  destruct (getitem msg "id") as [e|iden]; [by repeat split; left |].
  cbn. repeat split. right. by eexists.
Qed.

(** ** The update command: failures and answers *)

(** X13. A system-options update message without "id" raises [KeyError] for
    "id"; with "id" but without "type", for "type"; with both but without
    "entry_id", for "entry_id". In each case the registry and the
    connection are untouched and the entry update is not called. *)
Theorem system_options_update_key_errors
  (async_update_entry : ConfigEntry -> dict -> M HomeAssistant ConfigEntry)
  (msg : dict) (w : World) :
  (msg !! "id" = None ->
   system_options_update async_update_entry msg w = (raise (KeyError "id"), w))
  /\ (forall iden,
      msg !! "id" = Some iden ->
      msg !! "type" = None ->
      system_options_update async_update_entry msg w
      = (raise (KeyError "type"), w))
  /\ (forall iden ty,
      msg !! "id" = Some iden ->
      msg !! "type" = Some ty ->
      msg !! "entry_id" = None ->
      system_options_update async_update_entry msg w
      = (raise (KeyError "entry_id"), w)).
Proof.
  unfold system_options_update, bindM, lift, pop_envelope.
  split; [| split].
  - intros Hid. by rewrite (pop_None _ _ Hid).
  - intros iden Hid Hty. rewrite (pop_Some _ _ _ Hid). cbn [bind ok snd].
    rewrite pop_None; [done |]. by rewrite lookup_delete_ne.
  - intros iden ty Hid Hty Heid.
    rewrite (pop_Some _ _ _ Hid). cbn [bind ok snd].
    rewrite (pop_Some _ _ ty) by (by rewrite lookup_delete_ne).
    cbn [bind ok snd].
    rewrite pop_None; [done |]. by rewrite !lookup_delete_ne.
Qed.

Lemma system_options_update_key_errors_witness :
  system_options_update config_entries.async_update_entry
    (delete "id" (update_msg "E1" ∅)) (sample_world admin)
  = (raise (KeyError "id"), sample_world admin)
  /\ system_options_update config_entries.async_update_entry
       (delete "type" (update_msg "E1" ∅)) (sample_world admin)
     = (raise (KeyError "type"), sample_world admin)
  /\ system_options_update config_entries.async_update_entry
       (delete "entry_id" (update_msg "E1" ∅)) (sample_world admin)
     = (raise (KeyError "entry_id"), sample_world admin).
Proof.
  split; [| split].
  - apply (system_options_update_key_errors config_entries.async_update_entry
             (delete "id" (update_msg "E1" ∅)) (sample_world admin)).
    reflexivity.
  - destruct (system_options_update_key_errors
                config_entries.async_update_entry
                (delete "type" (update_msg "E1" ∅)) (sample_world admin))
      as (_ & H & _).
    apply (H (VInt 5)); reflexivity.
  - destruct (system_options_update_key_errors
                config_entries.async_update_entry
                (delete "entry_id" (update_msg "E1" ∅)) (sample_world admin))
      as (_ & _ & H).
    apply (H (VInt 5) (VStr "config_entries/system_options/update"));
      reflexivity.
Defined.

(** X14. Whatever the entry update does, a run of the update command that
    returns has sent exactly one message after those sent before, and a run
    that raises has sent nothing; the connection's user is never changed. *)
Theorem system_options_update_answers_once
  (async_update_entry : ConfigEntry -> dict -> M HomeAssistant ConfigEntry)
  (msg : dict) (w : World) :
  user (connection (snd (system_options_update async_update_entry msg w)))
  = user (connection w)
  /\ match fst (system_options_update async_update_entry msg w) with
     | inr _ =>
         exists m,
           sent (connection (snd (system_options_update async_update_entry msg w)))
           = (sent (connection w) ++ [m])%list
     | inl _ =>
         sent (connection (snd (system_options_update async_update_entry msg w)))
         = sent (connection w)
     end.
Proof.
  unfold system_options_update, bindM, lift, gets.
  destruct (pop_envelope msg) as [e|[eid changes]]; [done |].
  cbn [ok fst snd].
  destruct (config_entries.async_get_entry (hass w) eid) as [entry|].
  - unfold on_hass.
    destruct (async_update_entry entry changes (hass w)) as [[e|entry'] h'];
      [done |].
    destruct (getitem msg "id") as [e|iden]; [done |].
    cbn. split; [done |]. by eexists.
  - destruct (getitem msg "id") as [e|iden]; [done |].
    cbn. split; [done |]. by eexists.
Qed.

(** ** An update followed by a list *)

(** X15. When the entry update returns the entry and leaves the registry
    resolving the entry id to it, a list request for the same entry id that
    follows the update is answered with the very system options the update
    was answered with: the connection then holds the two result messages,
    the update's and the list's, after what was sent before. *)
Theorem system_options_update_then_list
  (async_update_entry : ConfigEntry -> dict -> M HomeAssistant ConfigEntry)
  (msg lmsg : dict) (iden ty eid liden : value) (w : World)
  (entry entry' : ConfigEntry) (h' : HomeAssistant) :
  msg !! "id" = Some iden ->
  msg !! "type" = Some ty ->
  msg !! "entry_id" = Some eid ->
  config_entries.async_get_entry (hass w) eid = Some entry ->
  async_update_entry entry
    (delete "entry_id" (delete "type" (delete "id" msg))) (hass w)
  = (ok entry', h') ->
  config_entries.async_get_entry h' eid = Some entry' ->
  lmsg !! "id" = Some liden ->
  lmsg !! "entry_id" = Some eid ->
  exists w1 w2,
    system_options_update async_update_entry msg w = (ok tt, w1)
    /\ system_options_list lmsg w1 = (ok tt, w2)
    /\ hass w2 = h'
    /\ sent (connection w2)
       = (sent (connection w)
          ++ [result_message iden
                (config_entries.as_dict (system_options entry'));
              result_message liden
                (config_entries.as_dict (system_options entry'))])%list.
Proof.
  intros Hid Hty Heid Hsome Hupd Hget Hlid Hleid.
  eexists _, _. split.
  { rewrite (system_options_update_found _ msg iden ty eid w Hid Hty Heid
               entry Hsome).
    unfold bindM, on_hass. rewrite Hupd. reflexivity. }
  split.
  { unfold system_options_list, bindM, lift, gets.
    rewrite (getitem_Some _ _ _ Hleid). cbn [ok hass]. rewrite Hget.
    rewrite (getitem_Some _ _ _ Hlid). reflexivity. }
  split; [reflexivity |].
  cbn. by rewrite <- app_assoc.
Qed.

Lemma system_options_update_then_list_witness :
  exists w1 w2,
    system_options_update config_entries.async_update_entry
      (update_msg "E1" {[ "disable_new_entities" := VBool true ]})
      (sample_world admin)
    = (ok tt, w1)
    /\ system_options_list (list_msg "E1") w1 = (ok tt, w2)
    /\ sent (connection w2)
       = [result_message (VInt 5)
            (VDict {[ "disable_new_entities" := VBool true ]});
          result_message (VInt 7)
            (VDict {[ "disable_new_entities" := VBool true ]})].
Proof.
  destruct (system_options_update_then_list
              config_entries.async_update_entry
              (update_msg "E1" {[ "disable_new_entities" := VBool true ]})
              (list_msg "E1")
              (VInt 5) (VStr "config_entries/system_options/update")
              (VStr "E1") (VInt 7) (sample_world admin)
              sample_entry
              (config_entries.with_system_options sample_entry
                 (mkSystemOptions true))
              (mkHass [config_entries.with_system_options sample_entry
                         (mkSystemOptions true)]
                      (progress sample_hass)))
    as (w1 & w2 & H1 & H2 & _ & H4); [reflexivity .. |].
  exists w1, w2. split; [exact H1 |]. split; [exact H2 | exact H4].
Defined.

(** ** What the listings and an unanswered list request leave behind *)

(** X16. Whatever the registry holds, a list request whose entry id resolves
    to no entry returns normally with the registry and the connection
    exactly as they were: no result and no error is sent, even when the
    message has no "id". *)
Theorem system_options_list_unknown_entry_sends_nothing
  (msg : dict) (eid : value) (w : World) :
  msg !! "entry_id" = Some eid ->
  config_entries.async_get_entry (hass w) eid = None ->
  system_options_list msg w = (ok tt, w)
  /\ system_options_list (delete "id" msg) w = (ok tt, w).
Proof.
  intros Heid Hnone. split.
  - by apply system_options_list_not_found with (eid := eid).
  - apply system_options_list_not_found with (eid := eid); [| done].
    by rewrite lookup_delete_ne.
Qed.

Lemma system_options_list_unknown_entry_sends_nothing_witness :
  system_options_list (list_msg "E9") (sample_world admin)
  = (ok tt, sample_world admin).
Proof.
  apply (system_options_list_unknown_entry_sends_nothing
           (list_msg "E9") (VStr "E9") (sample_world admin)); reflexivity.
Defined.

(** X17. The two listings never change [hass]: the entry list and the
    config-flow index GET leave it as it was for every caller, whether they
    answer, refuse or fail. *)
Theorem listings_leave_hass_untouched
  (HANDLERS : gmap string config_entries.Handler)
  (request : Request) (h : HomeAssistant) :
  snd (ConfigManagerEntryIndexView.get HANDLERS request h) = h
  /\ snd (ConfigManagerFlowIndexView.get request h) = h.
Proof.
  split; [reflexivity |].
  unfold ConfigManagerFlowIndexView.get, bindM, gets, lift, ret.
  destruct (is_admin (hass_user request)); [| reflexivity].
  cbn [negb ok].
  by destruct (comprehension_if _ _).
Qed.

(** ** The update command behind its schema *)

Lemma validator_schema (k : string) (v : value) :
  system_options_update_validator k v = true ->
  k ∈ system_options_update_schema.
Proof.
  unfold system_options_update_validator, system_options_update_schema.
  destruct (String.eqb_spec k "id") as [-> | _]; [set_solver |].
  destruct (String.eqb_spec k "type") as [-> | _]; [set_solver |].
  destruct (String.eqb_spec k "entry_id") as [-> | _]; [set_solver |].
  destruct (String.eqb_spec k "disable_new_entities") as [-> | _];
    [set_solver | discriminate].
Qed.

Lemma admits_lookup (msg : dict) (k : string) (v : value) :
  system_options_update_admits msg = true ->
  msg !! k = Some v ->
  system_options_update_validator k v = true.
Proof.
  unfold system_options_update_admits. intros Hadm Hk.
  apply bool_decide_eq_true in Hadm. by apply (Hadm k v).
Qed.

Lemma admits_dom (msg : dict) :
  system_options_update_admits msg = true ->
  dom msg ⊆ system_options_update_schema.
Proof.
  intros Hadm k Hk. apply elem_of_dom in Hk as [v Hv].
  by apply (validator_schema k v), (admits_lookup msg).
Qed.

Lemma unknown_key_not_admitted (msg : dict) (k : string) :
  is_Some (msg !! k) ->
  k ∉ system_options_update_schema ->
  system_options_update_admits msg = false.
Proof.
  intros Hk Hout.
  destruct (system_options_update_admits msg) eqn:Hadm; [| done].
  destruct Hout. apply (admits_dom msg Hadm), elem_of_dom, Hk.
Qed.

(** C5, as the claim states it, fails: an admin's patch with the unknown key
    [foo] does not succeed with [foo] ignored. The schema rejects the
    message before the handler is entered, whatever the entry update is, so
    the recognized [disable_new_entities] of the same patch is not stored
    either; the command ends in [vol.Invalid]. *)
Lemma unknown_key_is_rejected :
  let msg := update_msg "E1" (<["disable_new_entities" := VBool true]>
                              (<["foo" := VInt 1]> ∅)) in
  registered_system_options_update config_entries.async_update_entry msg
    (sample_world admin)
  = (raise Invalid, sample_world admin)
  /\ forall upd,
      registered_system_options_update upd msg (sample_world admin)
      = (raise Invalid, sample_world admin).
Proof.
  intros msg.
  assert (system_options_update_admits msg = false) as Hadm.
  { apply (unknown_key_not_admitted msg "foo").
    - eexists. reflexivity.
    - unfold system_options_update_schema. set_solver. }
  unfold registered_system_options_update, dispatch. rewrite Hadm.
  by split.
Qed.

(** C5, amended. A message with a key the command schema does not name is
    rejected with [vol.Invalid] before the handler is entered: nothing is
    forwarded to the entry update and nothing is stored. For an admin's
    message that the schema admits and whose entry id resolves to an entry,
    the envelope keys [id], [type] and [entry_id] are dropped and the
    changes forwarded to the entry update contain at most
    [disable_new_entities], holding the boolean of the message. *)
Theorem system_options_update_schema_guard
  (async_update_entry : ConfigEntry -> dict -> M HomeAssistant ConfigEntry)
  (msg : dict) (w : World) :
  (forall k,
      is_Some (msg !! k) ->
      k ∉ system_options_update_schema ->
      registered_system_options_update async_update_entry msg w
      = (raise Invalid, w))
  /\ (forall iden ty eid entry,
      system_options_update_admits msg = true ->
      is_admin (user (connection w)) = true ->
      msg !! "id" = Some iden ->
      msg !! "type" = Some ty ->
      msg !! "entry_id" = Some eid ->
      config_entries.async_get_entry (hass w) eid = Some entry ->
      exists changes,
        pop_envelope msg = ok (eid, changes)
        /\ registered_system_options_update async_update_entry msg w
           = (let! entry' := on_hass (async_update_entry entry changes) in
              send_result iden
                (config_entries.as_dict (system_options entry'))) w
        /\ dom changes ⊆ {[ "disable_new_entities" ]}
        /\ (forall v,
              changes !! "disable_new_entities" = Some v ->
              msg !! "disable_new_entities" = Some v
              /\ exists b, v = VBool b)).
Proof.
  split.
  - intros k Hk Hout.
    unfold registered_system_options_update, dispatch.
    by rewrite (unknown_key_not_admitted msg k Hk Hout).
  - intros iden ty eid entry Hadm Hadmin Hid Hty Heid Hsome.
    exists (delete "entry_id" (delete "type" (delete "id" msg))).
    split; [by eapply pop_envelope_ok |].
    split.
    { unfold registered_system_options_update, dispatch,
        websocket_api.require_admin.
      rewrite Hadm, Hadmin. by eapply system_options_update_found. }
    split.
    { pose proof (admits_dom msg Hadm) as Hdom.
      rewrite !dom_delete_L. unfold system_options_update_schema in Hdom.
      set_solver. }
    intros v Hv. rewrite !lookup_delete_ne in Hv by done.
    split; [exact Hv |].
    pose proof (admits_lookup msg _ _ Hadm Hv) as Hval.
    unfold system_options_update_validator in Hval. simpl in Hval.
    destruct v; try discriminate. by eexists.
Qed.

Lemma system_options_update_schema_guard_witness :
  registered_system_options_update config_entries.async_update_entry
    (update_msg "E1" {[ "foo" := VInt 1 ]}) (sample_world admin)
  = (raise Invalid, sample_world admin)
  /\ exists changes,
      pop_envelope (update_msg "E1" {[ "disable_new_entities" := VBool true ]})
      = ok (VStr "E1", changes)
      /\ dom changes ⊆ ({[ "disable_new_entities" ]} : gset string).
Proof.
  split.
  - apply (system_options_update_schema_guard
             config_entries.async_update_entry
             (update_msg "E1" {[ "foo" := VInt 1 ]}) (sample_world admin))
      with (k := "foo").
    + eexists. reflexivity.
    + unfold system_options_update_schema. set_solver.
  - destruct (system_options_update_schema_guard
                config_entries.async_update_entry
                (update_msg "E1" {[ "disable_new_entities" := VBool true ]})
                (sample_world admin)) as [_ H].
    destruct (H (VInt 5) (VStr "config_entries/system_options/update")
                (VStr "E1") sample_entry)
      as (changes & Hpop & _ & Hdom & _); [vm_compute; reflexivity | reflexivity .. |].
    exists changes. split; [exact Hpop | exact Hdom].
Defined.

(** X18. The handler itself filters nothing: for a message with "id", "type"
    and "entry_id" whose entry is found, it calls the entry update, whatever
    that is, with the message minus exactly those three keys, every other
    key holding the value the message gave it. *)
Theorem system_options_update_forwards_rest
  (async_update_entry : ConfigEntry -> dict -> M HomeAssistant ConfigEntry)
  (msg : dict) (iden ty eid : value) (w : World) (entry : ConfigEntry) :
  msg !! "id" = Some iden ->
  msg !! "type" = Some ty ->
  msg !! "entry_id" = Some eid ->
  config_entries.async_get_entry (hass w) eid = Some entry ->
  exists changes,
    pop_envelope msg = ok (eid, changes)
    /\ system_options_update async_update_entry msg w
       = (let! entry' := on_hass (async_update_entry entry changes) in
          send_result iden (config_entries.as_dict (system_options entry'))) w
    /\ dom changes = dom msg ∖ {[ "id"; "type"; "entry_id" ]}
    /\ (forall k, k ∈ dom changes -> changes !! k = msg !! k).
Proof.
  intros Hid Hty Heid Hsome.
  exists (delete "entry_id" (delete "type" (delete "id" msg))).
  assert (dom (delete "entry_id" (delete "type" (delete "id" msg)))
          = dom msg ∖ {[ "id"; "type"; "entry_id" ]}) as Hdom.
  { rewrite !dom_delete_L. set_solver. }
  split; [by eapply pop_envelope_ok |].
  split; [by eapply system_options_update_found |].
  split; [exact Hdom |].
  intros k Hk. rewrite Hdom in Hk.
  rewrite !lookup_delete_ne; [done | set_solver ..].
Qed.

Lemma system_options_update_forwards_rest_witness :
  exists changes,
    pop_envelope (update_msg "E1" {[ "disable_new_entities" := VBool true ]})
    = ok (VStr "E1", changes)
    /\ changes !! "disable_new_entities" = Some (VBool true).
Proof.
  destruct (system_options_update_forwards_rest
              config_entries.async_update_entry
              (update_msg "E1" {[ "disable_new_entities" := VBool true ]})
              (VInt 5) (VStr "config_entries/system_options/update")
              (VStr "E1") (sample_world admin) sample_entry)
    as (changes & Hpop & _ & Hdom & Hval); [reflexivity .. |].
  exists changes. split; [exact Hpop |].
  rewrite Hval; [reflexivity |].
  rewrite Hdom. apply elem_of_difference. split.
  - apply elem_of_dom. eexists. reflexivity.
  - set_solver.
Defined.
